(** * SenseWatch4: the sensor data server ([src/server.py])

    A shallow embedding of the FastAPI/MQTT server: the record model
    ([SensorData], [SensorReading]), the three storage operations
    ([insert_sensor_data], [get_latest_readings], [get_all_sensors]), the
    MQTT callback [on_message] and the HTTP routes, followed by the
    properties of the design document proved (or refuted) on them.

    Python code that raises and mutates is written in a state-and-exception
    monad over a [world]: the MySQL table, the connections that are open,
    the schedule of storage faults and what was printed.  The load
    generator ([src/datagen.py]) is embedded as a client of the route
    [POST /data]. *)

From Stdlib Require Import ZArith List Lia Bool Ascii.
From Stdlib Require Import Floats.SpecFloat.
From stdpp Require Import gmap strings sorting lexico pretty.
Import ListNotations.

Set Warnings "-register-all".
Local Open Scope string_scope.
Local Open Scope list_scope.
Local Open Scope Z_scope.

(** ** Python values *)

(** [datetime.datetime], naive (no tzinfo), as its seven fields. *)
Record datetime : Type := mk_datetime {
  year : Z; month : Z; day : Z;
  hour : Z; minute : Z; second : Z; microsecond : Z
}.

(** A Python [float] is an IEEE 754 binary64 number. *)
Definition float : Type := spec_float.

Definition float_of_int (z : Z) : float := binary_normalize 53 1024 z 0 false.

(** What [json.loads] can return, plus [datetime] objects, which
    [on_message] stores into the decoded payload. *)
Inductive value : Type :=
  | VNone
  | VBool (b : bool)
  | VInt (z : Z)
  | VFloat (f : float)
  | VStr (s : string)
  | VList (l : list value)
  | VDict (d : gmap string value)
  | VDatetime (t : datetime).

(** The body of an HTTP request or of an MQTT message, seen through
    [json.loads(payload.decode())]: the bytes are not UTF-8, or they are
    not JSON, or they decode to a value. *)
Inductive payload : Type :=
  | NotUnicode (e : string)
  | NotJSON (e : string)
  | JSON (v : value).

(** One entry of a pydantic error list: the field and the error type. *)
Definition error_item : Type := string * string.

(** The exceptions the server raises or meets.  All of them derive from
    [Exception]; [JSONDecodeError] and [UnicodeDecodeError] are
    [ValueError]s, [MySQLError] is [mysql.connector.Error]. *)
Inductive exn : Type :=
  | HTTPException (status_code : Z) (detail : string)
  | RequestValidationError (errors : list error_item)
  | ValidationError (errors : list error_item)
  | MySQLError (msg : string)
  | JSONDecodeError (msg : string)
  | UnicodeDecodeError (msg : string)
  | KeyError (key : string)
  | TypeError (msg : string)
  | ValueError (msg : string)
  | OtherException (msg : string).

(** [isinstance(e, mysql.connector.Error)] *)
Definition is_Error (e : exn) : option string :=
  match e with MySQLError msg => Some msg | _ => None end.

(** [isinstance(e, json.JSONDecodeError)] *)
Definition is_JSONDecodeError (e : exn) : bool :=
  match e with JSONDecodeError _ => true | _ => false end.

(** [str(e)] *)
Definition str (e : exn) : string :=
  match e with
  | HTTPException c d => pretty c +:+ ": " +:+ d
  | RequestValidationError _ => "request validation error"
  | ValidationError _ => "validation error for SensorData"
  | MySQLError m | JSONDecodeError m | UnicodeDecodeError m
  | TypeError m | ValueError m | OtherException m => m
  | KeyError k => "'" +:+ k +:+ "'"
  end.

(** ** The record model *)

Module SensorData.
Record t : Type := make {
  sensor_id : string;
  device_id : string;
  timestamp : datetime;
  temp_value : float
}.
End SensorData.

Module SensorReading.
Record t : Type := make {
  id : Z;
  sensor_id : string;
  device_id : string;
  timestamp : datetime;
  temp_value : float
}.
End SensorReading.

(** The row that [INSERT INTO sensor_data (sensor_id, device_id, timestamp,
    temp_value) VALUES (...)] creates under the identifier [i]. *)
Definition row_of (i : Z) (data : SensorData.t) : SensorReading.t :=
  {| SensorReading.id := i;
     SensorReading.sensor_id := SensorData.sensor_id data;
     SensorReading.device_id := SensorData.device_id data;
     SensorReading.timestamp := SensorData.timestamp data;
     SensorReading.temp_value := SensorData.temp_value data |}.

(** The four reading fields of a stored row, without its identifier. *)
Definition reading_of (r : SensorReading.t) : SensorData.t :=
  {| SensorData.sensor_id := SensorReading.sensor_id r;
     SensorData.device_id := SensorReading.device_id r;
     SensorData.timestamp := SensorReading.timestamp r;
     SensorData.temp_value := SensorReading.temp_value r |}.

(** ** The world the server runs in *)

(** The calls on a MySQL connection that can be refused by the server. *)
Inductive sql_step : Type := AtCursor | AtExecute | AtCommit | AtFetchall.

Definition sql_step_eqb (a b : sql_step) : bool :=
  match a, b with
  | AtCursor, AtCursor | AtExecute, AtExecute
  | AtCommit, AtCommit | AtFetchall, AtFetchall => true
  | _, _ => false
  end.

(** What the storage engine does at one connection attempt:
    - [Healthy]: the connection is made and every call on it succeeds;
    - [Unreachable e]: [mysql.connector.connect] raises [Error];
    - [ConnectCrash e]: [connect] raises an exception that is not an
      [Error] (the case [health_check] guards with [except Exception]);
    - [FailsAt s e]: the connection is made and the call [s] on it raises
      [Error].
    mysql.connector reports every failure of a call on a connection as an
    instance of [Error]; closing a cursor or a connection does not raise. *)
Inductive fault : Type :=
  | Healthy
  | Unreachable (e : string)
  | ConnectCrash (e : string)
  | FailsAt (s : sql_step) (e : string).

(** What the server prints, one constructor per [print] block. *)
Inductive log_line : Type :=
  | LogConnectError (e : string)     (* Error connecting to MySQL: {e} *)
  | LogInsertError (e : string)      (* Error inserting data: {e} *)
  | LogRetrieveError (e : string)    (* Error retrieving data: {e} *)
  | LogSensorsError (e : string)     (* Error retrieving sensors: {e} *)
  | LogReceivedMQTT (record_id : Z) (data : SensorData.t)
  | LogReceivedREST (record_id : Z) (data : SensorData.t)
  | LogJSONError (e : exn)           (* Error decoding JSON: {e} *)
  | LogProcessError (e : exn).       (* Error processing message: {e} *)

(** - [sensor_data]: the committed rows of the table, in insertion order;
    - [auto_increment]: the identifier the next [INSERT] receives;
    - [open_connections]: the handles that are open, each with the rows
      it has written and not yet committed;
    - [handles_issued]: how many connections were made so far;
    - [faults]: the behaviour of the storage engine at the coming
      connection attempts (none left: healthy);
    - [stdout]: what was printed, oldest first. *)
Record world : Type := mk_world {
  sensor_data : list SensorReading.t;
  auto_increment : Z;
  open_connections : gmap nat (list SensorReading.t);
  handles_issued : nat;
  faults : list fault;
  stdout : list log_line
}.

(** ** Python control flow: state and exceptions *)

Inductive result (A : Type) : Type :=
  | Return (a : A)
  | Raise (e : exn).
Arguments Return {A} a.
Arguments Raise {A} e.

Definition M (A : Type) : Type := world -> result A * world.

Definition ret {A} (a : A) : M A := fun w => (Return a, w).

Definition raise {A} (e : exn) : M A := fun w => (Raise e, w).

Definition bind {A B} (m : M A) (k : A -> M B) : M B := fun w =>
  match m w with
  | (Return a, w') => k a w'
  | (Raise e, w') => (Raise e, w')
  end.

Declare Scope py_scope.
Delimit Scope py_scope with py.
Notation "x <- m ;; k" := (bind m (fun x => k))
  (at level 100, m at next level, right associativity) : py_scope.
Notation "m ;; k" := (bind m (fun _ => k))
  (at level 100, right associativity) : py_scope.
Local Open Scope py_scope.

(** [try: body except ...: handler]: [handler e] is [None] when no
    [except] clause matches [e], which then propagates. *)
Definition try_except {A} (body : M A) (handler : exn -> option (M A)) : M A :=
  fun w =>
    match body w with
    | (Return a, w') => (Return a, w')
    | (Raise e, w') =>
        match handler e with
        | Some h => h w'
        | None => (Raise e, w')
        end
    end.

Definition print (l : log_line) : M unit := fun w =>
  (Return tt,
   mk_world (sensor_data w) (auto_increment w) (open_connections w)
            (handles_issued w) (faults w) (stdout w ++ [l])).

(** ** mysql.connector *)

(** A connection object: its handle, and the call the server will refuse
    on it, if any. *)
Record connection : Type := mk_connection {
  handle : nat;
  fate : option (sql_step * string)
}.

(** A cursor after its last [execute]: [lastrowid] and the rows that
    [fetchall] will return. *)
Record cursor (A : Type) : Type := mk_cursor {
  lastrowid : Z;
  result_set : list A
}.

Definition next_fault (w : world) : fault :=
  match faults w with [] => Healthy | f :: _ => f end.

Definition open_connection (w : world) (fate : option (sql_step * string))
  : result connection * world :=
  let h := handles_issued w in
  (Return (mk_connection h fate),
   mk_world (sensor_data w) (auto_increment w)
            (<[h := []]> (open_connections w))
            (S h) (tail (faults w)) (stdout w)).

(** [mysql.connector.connect] with [DB_CONFIG] *)
Definition mysql_connect : M connection := fun w =>
  match next_fault w with
  | Healthy => open_connection w None
  | FailsAt s e => open_connection w (Some (s, e))
  | Unreachable e =>
      (Raise (MySQLError e),
       mk_world (sensor_data w) (auto_increment w) (open_connections w)
                (handles_issued w) (tail (faults w)) (stdout w))
  | ConnectCrash e =>
      (Raise (OtherException e),
       mk_world (sensor_data w) (auto_increment w) (open_connections w)
                (handles_issued w) (tail (faults w)) (stdout w))
  end.

(** The call [s] on [c] raises [Error] when the server refuses it. *)
Definition attempt (c : connection) (s : sql_step) : M unit :=
  match fate c with
  | Some (s', e) => if sql_step_eqb s s' then raise (MySQLError e) else ret tt
  | None => ret tt
  end.

(** [connection.cursor()] *)
Definition connection_cursor {A} (c : connection) : M (cursor A) :=
  attempt c AtCursor ;; ret (mk_cursor A 0 []).

(** [cursor.execute("INSERT INTO sensor_data ... VALUES (%s, %s, %s, %s)",
    values)]: the row takes the next identifier and waits, in the
    transaction of [c], for the commit. *)
Definition execute_insert (c : connection) (values : SensorData.t)
  : M (cursor unit) :=
  attempt c AtExecute ;;
  fun w =>
    let i := auto_increment w in
    let pending := default [] (open_connections w !! handle c) in
    (Return (mk_cursor unit i []),
     mk_world (sensor_data w) (i + 1)
              (<[handle c := pending ++ [row_of i values]]> (open_connections w))
              (handles_issued w) (faults w) (stdout w)).

(** [connection.commit()]: the rows written through [c] become durable. *)
Definition connection_commit (c : connection) : M unit :=
  attempt c AtCommit ;;
  fun w =>
    let pending := default [] (open_connections w !! handle c) in
    (Return tt,
     mk_world (sensor_data w ++ pending) (auto_increment w)
              (<[handle c := []]> (open_connections w))
              (handles_issued w) (faults w) (stdout w)).

(** [cursor.close()] *)
Definition cursor_close {A} (cur : cursor A) : M unit := ret tt.

(** [connection.close()]: the handle is released and what it had not
    committed is rolled back. *)
Definition connection_close (c : connection) : M unit := fun w =>
  (Return tt,
   mk_world (sensor_data w) (auto_increment w)
            (delete (handle c) (open_connections w))
            (handles_issued w) (faults w) (stdout w)).

(** ** The two queries, as MySQL evaluates them *)

(** Chronological order on [datetime] is the lexicographic order on its
    fields, most significant first. *)
Definition datetime_key (t : datetime) : Z * (Z * (Z * (Z * (Z * (Z * Z))))) :=
  (year t, (month t, (day t, (hour t, (minute t, (second t, microsecond t)))))).

Definition sort_key (r : SensorReading.t) : Z * (Z * (Z * (Z * (Z * (Z * Z))))) * Z :=
  (datetime_key (SensorReading.timestamp r), SensorReading.id r).

(** [ORDER BY timestamp DESC, id DESC]: [a] may stand before [b]. *)
Definition latest_first : relation SensorReading.t := fun a b =>
  sort_key a = sort_key b \/ lexico (sort_key b) (sort_key a).

Global Instance latest_first_dec : RelDecision latest_first.
Proof. intros a b. unfold latest_first. apply _. Defined.

(** Strings are compared byte by byte (a binary collation). *)
Definition string_key (s : string) : list N :=
  Ascii.N_of_ascii <$> String.list_ascii_of_string s.

(** [ORDER BY sensor_id]: [a] may stand before [b]. *)
Definition string_le : relation string := fun a b =>
  a = b \/ lexico (string_key a) (string_key b).

Global Instance string_le_dec : RelDecision string_le.
Proof. intros a b. unfold string_le. apply _. Defined.

(** [SELECT id, sensor_id, device_id, timestamp, temp_value FROM sensor_data
     WHERE sensor_id = %s ORDER BY timestamp DESC, id DESC LIMIT %s] *)
Definition select_latest (rows : list SensorReading.t) (sensor_id : string)
    (limit : Z) : list SensorReading.t :=
  take (Z.to_nat limit)
       (merge_sort latest_first
          (filter (fun r => SensorReading.sensor_id r = sensor_id) rows)).

(** [SELECT DISTINCT sensor_id FROM sensor_data ORDER BY sensor_id] *)
Definition select_distinct_sensor_id (rows : list SensorReading.t) : list string :=
  merge_sort string_le (remove_dups (SensorReading.sensor_id <$> rows)).

(** [cursor.execute(query, (sensor_id, limit))] for the query of
    [get_latest_readings]; MySQL rejects a negative [LIMIT]. *)
Definition execute_latest (c : connection) (sensor_id : string) (limit : Z)
  : M (cursor SensorReading.t) :=
  attempt c AtExecute ;;
  if decide (limit < 0)
  then raise (MySQLError "You have an error in your SQL syntax")
  else fun w =>
    (Return (mk_cursor _ 0 (select_latest (sensor_data w) sensor_id limit)), w).

(** [cursor.execute(query)] for the query of [get_all_sensors]; a row of
    the result is the one-column tuple [(sensor_id,)]. *)
Definition execute_distinct (c : connection) : M (cursor string) :=
  attempt c AtExecute ;;
  fun w => (Return (mk_cursor _ 0 (select_distinct_sensor_id (sensor_data w))), w).

(** [cursor.fetchall()] *)
Definition cursor_fetchall {A} (c : connection) (cur : cursor A) : M (list A) :=
  attempt c AtFetchall ;; ret (result_set _ cur).

(** ** Libraries and configuration *)

(** The conversions the server leaves to the standard library and to
    pydantic.  [None] is the library's refusal ([ValueError], or a
    validation error for the field).
    - [datetime_fromisoformat]: [datetime.fromisoformat] on a [str];
    - [fromisoformat_error]: the text of the [ValueError] that
      [datetime.fromisoformat] raises on a [str] it refuses ([Invalid
      isoformat string: ] and the repr of the string, or the complaint
      about a field that is out of range);
    - [datetime_isoformat]: [datetime.isoformat];
    - [coerce_datetime]: pydantic's conversion to a [datetime] field of an
      input that is not a [datetime] object (an ISO 8601 string, a number
      of seconds);
    - [coerce_float]: pydantic's conversion to a [float] field of an input
      that is not a [float] (an integer, a numeric string). *)
Record library : Type := mk_library {
  datetime_fromisoformat : string -> option datetime;
  fromisoformat_error : string -> string;
  datetime_isoformat : datetime -> string;
  coerce_datetime : value -> option datetime;
  coerce_float : value -> option float
}.

(** The module-level constants read from the environment at import. *)
Record config : Type := mk_config {
  MQTT_BROKER : string;
  MQTT_PORT : Z;
  MQTT_TOPIC : string;
  MQTT_CLIENT_ID : string
}.

(** A message as paho hands it to [on_message]. *)
Record MQTTMessage : Type := mk_message {
  topic : string;
  msg_payload : payload
}.

(** The JSON object [submit_sensor_data] returns. *)
Record echo : Type := mk_echo {
  echo_sensor_id : string;
  echo_device_id : string;
  echo_timestamp : string;
  echo_temp_value : float
}.

Record submit_response : Type := mk_submit_response {
  status : string;
  message : string;
  record_id : Z;
  data : echo
}.

(** The JSON object [health_check] returns. *)
Record health : Type := mk_health {
  health_status : string;
  database : string;
  mqtt_broker : string;
  mqtt_port : Z
}.

(** ** A reference library

    The conversions on the wire format the repository's own producer
    ([src/datagen.py]) emits: timestamps written by [datetime.isoformat]
    ([YYYY-MM-DDTHH:MM:SS], with [.ffffff] when the microseconds are not
    zero) and JSON numbers.  The properties below are proved for every
    [library]; this one makes the examples run. *)

Definition is_leap (y : Z) : bool :=
  ((y mod 4 =? 0) && negb (y mod 100 =? 0)) || (y mod 400 =? 0).

Definition days_in_month (y m : Z) : Z :=
  if m =? 2 then (if is_leap y then 29 else 28)
  else if (m =? 4) || (m =? 6) || (m =? 9) || (m =? 11) then 30
  else 31.

Definition datetime_ok (t : datetime) : bool :=
  (1 <=? year t) && (year t <=? 9999) &&
  (1 <=? month t) && (month t <=? 12) &&
  (1 <=? day t) && (day t <=? days_in_month (year t) (month t)) &&
  (0 <=? hour t) && (hour t <? 24) &&
  (0 <=? minute t) && (minute t <? 60) &&
  (0 <=? second t) && (second t <? 60) &&
  (0 <=? microsecond t) && (microsecond t <? 1000000).

Definition digit_char (n : Z) : ascii :=
  Ascii.ascii_of_N (Z.to_N (48 + n mod 10)).

(** [n] in decimal, zero-padded to [width] digits. *)
Fixpoint zero_padded (width : nat) (n : Z) : string :=
  match width with
  | O => ""
  | S k => zero_padded k (n / 10) +:+ String (digit_char n) ""
  end.

Definition reference_isoformat (t : datetime) : string :=
  zero_padded 4 (year t) +:+ "-" +:+ zero_padded 2 (month t) +:+ "-" +:+
  zero_padded 2 (day t) +:+ "T" +:+ zero_padded 2 (hour t) +:+ ":" +:+
  zero_padded 2 (minute t) +:+ ":" +:+ zero_padded 2 (second t) +:+
  (if microsecond t =? 0 then "" else "." +:+ zero_padded 6 (microsecond t)).

Definition digit_value (c : ascii) : option Z :=
  let n := Z.of_N (Ascii.N_of_ascii c) in
  if (48 <=? n) && (n <=? 57) then Some (n - 48) else None.

(** Reads exactly [width] decimal digits. *)
Fixpoint read_number (width : nat) (acc : Z) (s : string) : option (Z * string) :=
  match width, s with
  | O, _ => Some (acc, s)
  | S k, String c s' => d ← digit_value c; read_number k (10 * acc + d) s'
  | S _, EmptyString => None
  end.

Definition read_char (c : ascii) (s : string) : option string :=
  match s with
  | String c' s' => if decide (c = c') then Some s' else None
  | EmptyString => None
  end.

Definition read_any (s : string) : option string :=
  match s with String _ s' => Some s' | EmptyString => None end.

(** The fraction of a second: nothing, [.fff] or [.ffffff]. *)
Definition read_fraction (s : string) : option Z :=
  match s with
  | EmptyString => Some 0
  | String c s' =>
      if decide (c = "."%char) then
        if decide (String.length s' = 3%nat :> nat) then
          '(ms, rest) ← read_number 3 0 s';
          if decide (rest = "") then Some (1000 * ms) else None
        else
          '(us, rest) ← read_number 6 0 s';
          if decide (rest = "") then Some us else None
      else None
  end.

Definition checked (t : datetime) : option datetime :=
  if datetime_ok t then Some t else None.

(** The fields written in [s], before their ranges are checked. *)
Definition reference_fields (s : string) : option datetime :=
  '(y, s) ← read_number 4 0 s;
  s ← read_char "-"%char s;
  '(m, s) ← read_number 2 0 s;
  s ← read_char "-"%char s;
  '(d, s) ← read_number 2 0 s;
  if decide (s = "") then Some (mk_datetime y m d 0 0 0 0)
  else
    s ← read_any s;
    '(h, s) ← read_number 2 0 s;
    s ← read_char ":"%char s;
    '(mi, s) ← read_number 2 0 s;
    s ← read_char ":"%char s;
    '(sec, s) ← read_number 2 0 s;
    us ← read_fraction s;
    Some (mk_datetime y m d h mi sec us).

Definition reference_fromisoformat (s : string) : option datetime :=
  t ← reference_fields s; checked t.

Definition backslash : ascii := Ascii.ascii_of_N 92.

Definition double_quote : ascii := Ascii.ascii_of_N 34.

Fixpoint contains (c : ascii) (s : string) : bool :=
  match s with
  | EmptyString => false
  | String c' s' => bool_decide (c = c') || contains c s'
  end.

Definition hex_digit (n : N) : ascii :=
  Ascii.ascii_of_N (if (n <? 10)%N then 48 + n else 87 + n)%N.

(** One character of [repr(s)] between the quotes [quote].  Bytes above
    127 belong to characters that are not ASCII and are kept, as [repr]
    keeps the printable ones. *)
Definition repr_char (quote c : ascii) : string :=
  let n := Ascii.N_of_ascii c in
  if bool_decide (c = quote) || (n =? 92)%N then String backslash (String c "")
  else if (n =? 9)%N then String backslash "t"
  else if (n =? 10)%N then String backslash "n"
  else if (n =? 13)%N then String backslash "r"
  else if (n <? 32)%N || (n =? 127)%N then
    String backslash
      (String "x"%char
         (String (hex_digit (n / 16)%N) (String (hex_digit (n mod 16)%N) "")))
  else String c "".

Fixpoint repr_chars (quote : ascii) (s : string) : string :=
  match s with
  | EmptyString => ""
  | String c s' => repr_char quote c +:+ repr_chars quote s'
  end.

(** [repr(s)] of a [str]: in single quotes, unless [s] has a single
    quote and no double quote. *)
Definition repr (s : string) : string :=
  let quote :=
    if contains "'"%char s && negb (contains double_quote s)
    then double_quote else "'"%char in
  String quote (repr_chars quote s +:+ String quote "").

(** The complaint of the [datetime] constructor about the first field
    that is out of range. *)
Definition range_error (t : datetime) : option string :=
  if negb ((1 <=? year t) && (year t <=? 9999)) then
    Some ("year " +:+ pretty (year t) +:+ " is out of range")
  else if negb ((1 <=? month t) && (month t <=? 12)) then
    Some "month must be in 1..12"
  else if negb ((1 <=? day t) && (day t <=? days_in_month (year t) (month t))) then
    Some "day is out of range for month"
  else if negb ((0 <=? hour t) && (hour t <? 24)) then
    Some "hour must be in 0..23"
  else if negb ((0 <=? minute t) && (minute t <? 60)) then
    Some "minute must be in 0..59"
  else if negb ((0 <=? second t) && (second t <? 60)) then
    Some "second must be in 0..59"
  else if negb ((0 <=? microsecond t) && (microsecond t <? 1000000)) then
    Some "microsecond must be in 0..999999"
  else None.

Definition reference_fromisoformat_error (s : string) : string :=
  let invalid := "Invalid isoformat string: " +:+ repr s in
  match reference_fields s with
  | Some t => default invalid (range_error t)
  | None => invalid
  end.

Definition reference_library : library :=
  {| datetime_fromisoformat := reference_fromisoformat;
     fromisoformat_error := reference_fromisoformat_error;
     datetime_isoformat := reference_isoformat;
     coerce_datetime := fun v =>
       match v with VStr s => reference_fromisoformat s | _ => None end;
     coerce_float := fun v =>
       match v with VInt z => Some (float_of_int z) | _ => None end |}.

Definition default_config : config :=
  {| MQTT_BROKER := "localhost"; MQTT_PORT := 1883;
     MQTT_TOPIC := "sensor/data"; MQTT_CLIENT_ID := "sensor_server" |}.

(** ** The server *)

Section Server.

Context (lib : library) (cfg : config).

(** *** [class SensorData(BaseModel)] *)

(** A [str] field takes a string as it is, and nothing else; no length
    is asked of it. *)
Definition validate_str (v : value) : option string :=
  match v with VStr s => Some s | _ => None end.

Definition validate_datetime (v : value) : option datetime :=
  match v with VDatetime t => Some t | _ => coerce_datetime lib v end.

Definition validate_float (v : value) : option float :=
  match v with VFloat f => Some f | _ => coerce_float lib v end.

(** A required field ([Field(...)]): it is missing, or of the wrong
    type, or valid. *)
Definition field {A} (d : gmap string value) (name : string)
    (validate : value -> option A) (type_error : string)
  : list error_item + A :=
  match d !! name with
  | None => inl [(name, "missing")]
  | Some v =>
      match validate v with
      | Some a => inr a
      | None => inl [(name, type_error)]
      end
  end.

Definition errors_of {A} (r : list error_item + A) : list error_item :=
  match r with inl errs => errs | inr _ => [] end.

(** Validation of the four fields; pydantic reports the errors of all
    fields, in the order of their declaration.  Keys that are not fields
    are ignored. *)
Definition SensorData_validate (d : gmap string value)
  : list error_item + SensorData.t :=
  let s := field d "sensor_id" validate_str "string_type" in
  let dv := field d "device_id" validate_str "string_type" in
  let ts := field d "timestamp" validate_datetime "datetime_type" in
  let tv := field d "temp_value" validate_float "float_type" in
  match s, dv, ts, tv with
  | inr s', inr dv', inr ts', inr tv' => inr (SensorData.make s' dv' ts' tv')
  | _, _, _, _ => inl (errors_of s ++ errors_of dv ++ errors_of ts ++ errors_of tv)
  end.

(** [SensorData] built from the keyword arguments [payload]. *)
Definition SensorData_init (payload : value) : M SensorData.t :=
  match payload with
  | VDict d =>
      match SensorData_validate d with
      | inr data => ret data
      | inl errs => raise (ValidationError errs)
      end
  | _ => raise (TypeError "argument after ** must be a mapping")
  end.

(** *** Storage

    In the [except Error] handlers the test [if connection:] is always
    passed, a connection object being true: the handler closes the
    connection. *)

Definition get_db_connection : M (option connection) :=
  try_except
    (connection <- mysql_connect ;;
     ret (Some connection))
    (fun e =>
       match is_Error e with
       | Some msg => Some (print (LogConnectError msg) ;; ret None)
       | None => None
       end).

Definition insert_sensor_data (data : SensorData.t) : M Z :=
  connection <- get_db_connection ;;
  match connection with
  | None => raise (HTTPException 500 "Database connection failed")
  | Some connection =>
      try_except
        (cursor <- connection_cursor (A := unit) connection ;;
         cursor <- execute_insert connection data ;;
         connection_commit connection ;;
         let record_id := lastrowid _ cursor in
         cursor_close cursor ;;
         connection_close connection ;;
         ret record_id)
        (fun e =>
           match is_Error e with
           | Some msg => Some
               (print (LogInsertError msg) ;;
                connection_close connection ;;
                raise (HTTPException 500 ("Database error: " +:+ msg)))
           | None => None
           end)
  end.

Definition get_latest_readings (sensor_id : string) (limit : Z)
  : M (list SensorReading.t) :=
  connection <- get_db_connection ;;
  match connection with
  | None => raise (HTTPException 500 "Database connection failed")
  | Some connection =>
      try_except
        (cursor <- connection_cursor (A := SensorReading.t) connection ;;
         cursor <- execute_latest connection sensor_id limit ;;
         results <- cursor_fetchall connection cursor ;;
         cursor_close cursor ;;
         connection_close connection ;;
         ret results)
        (fun e =>
           match is_Error e with
           | Some msg => Some
               (print (LogRetrieveError msg) ;;
                connection_close connection ;;
                raise (HTTPException 500 ("Database error: " +:+ msg)))
           | None => None
           end)
  end.

Definition get_all_sensors : M (list string) :=
  connection <- get_db_connection ;;
  match connection with
  | None => raise (HTTPException 500 "Database connection failed")
  | Some connection =>
      try_except
        (cursor <- connection_cursor (A := string) connection ;;
         cursor <- execute_distinct connection ;;
         rows <- cursor_fetchall connection cursor ;;
         let results := rows in
         cursor_close cursor ;;
         connection_close connection ;;
         ret results)
        (fun e =>
           match is_Error e with
           | Some msg => Some
               (print (LogSensorsError msg) ;;
                connection_close connection ;;
                raise (HTTPException 500 ("Database error: " +:+ msg)))
           | None => None
           end)
  end.

(** *** The MQTT listener *)

(** [json.loads(msg.payload.decode())] *)
Definition json_loads_decode (p : payload) : M value :=
  match p with
  | NotUnicode e => raise (UnicodeDecodeError e)
  | NotJSON e => raise (JSONDecodeError e)
  | JSON v => ret v
  end.

(** [type(v).__name__], with the module for [datetime], as the messages
    of [TypeError] spell it. *)
Definition type_name (v : value) : string :=
  match v with
  | VNone => "NoneType"
  | VBool _ => "bool"
  | VInt _ => "int"
  | VFloat _ => "float"
  | VStr _ => "str"
  | VList _ => "list"
  | VDict _ => "dict"
  | VDatetime _ => "datetime.datetime"
  end.

(** [payload[key]], [key] being a [str]; the texts of the [TypeError]s
    are those of CPython 3.11. *)
Definition getitem (payload : value) (key : string) : M value :=
  match payload with
  | VDict d =>
      match d !! key with
      | Some v => ret v
      | None => raise (KeyError key)
      end
  | VList _ => raise (TypeError "list indices must be integers or slices, not str")
  | VStr _ => raise (TypeError "string indices must be integers, not 'str'")
  | _ => raise (TypeError ("'" +:+ type_name payload +:+
                           "' object is not subscriptable"))
  end.

(** [payload[key] = v], [key] being a [str] *)
Definition setitem (payload : value) (key : string) (v : value) : M value :=
  match payload with
  | VDict d => ret (VDict (<[key := v]> d))
  | VList _ => raise (TypeError "list indices must be integers or slices, not str")
  | _ => raise (TypeError ("'" +:+ type_name payload +:+
                           "' object does not support item assignment"))
  end.

(** [datetime.fromisoformat(v)] *)
Definition fromisoformat (v : value) : M datetime :=
  match v with
  | VStr s =>
      match datetime_fromisoformat lib s with
      | Some t => ret t
      | None => raise (ValueError (fromisoformat_error lib s))
      end
  | _ => raise (TypeError "fromisoformat: argument must be str")
  end.

Definition on_message (msg : MQTTMessage) : M unit :=
  try_except
    (payload <- json_loads_decode (msg_payload msg) ;;
     ts <- getitem payload "timestamp" ;;
     t <- fromisoformat ts ;;
     payload <- setitem payload "timestamp" (VDatetime t) ;;
     sensor_data <- SensorData_init payload ;;
     record_id <- insert_sensor_data sensor_data ;;
     print (LogReceivedMQTT record_id sensor_data))
    (fun e =>
       if is_JSONDecodeError e
       then Some (print (LogJSONError e))
       else Some (print (LogProcessError e))).

(** paho's network loop ([loop_start]) hands the messages of the
    subscription to [on_message] one at a time, in the order of delivery;
    an exception that leaves the callback ends the loop. *)
Fixpoint mqtt_loop (msgs : list MQTTMessage) : M unit :=
  match msgs with
  | [] => ret tt
  | msg :: rest => on_message msg ;; mqtt_loop rest
  end.

(** *** The HTTP routes *)

Definition submit_sensor_data (data : SensorData.t) : M submit_response :=
  record_id <- insert_sensor_data data ;;
  print (LogReceivedREST record_id data) ;;
  ret {| status := "success";
         message := "Sensor data received and stored in database";
         record_id := record_id;
         data := {| echo_sensor_id := SensorData.sensor_id data;
                    echo_device_id := SensorData.device_id data;
                    echo_timestamp :=
                      datetime_isoformat lib (SensorData.timestamp data);
                    echo_temp_value := SensorData.temp_value data |} |}.

(** What FastAPI does with the body of [POST /data] before it calls the
    handler: the parameter [data: SensorData] is built from the JSON
    object, and a body that does not validate is answered with 422.
    Bytes that cannot be decoded make [json.loads] raise
    [UnicodeDecodeError], which FastAPI answers with 400; bytes that are
    not JSON make it raise [JSONDecodeError], answered with 422. *)
Definition body_SensorData (body : payload) : M SensorData.t :=
  match body with
  | NotUnicode _ =>
      raise (HTTPException 400 "There was an error parsing the body")
  | NotJSON _ =>
      raise (RequestValidationError [("body", "json_invalid")])
  | JSON (VDict d) =>
      match SensorData_validate d with
      | inr data => ret data
      | inl errs => raise (RequestValidationError errs)
      end
  | JSON _ => raise (RequestValidationError [("body", "model_attributes_type")])
  end.

(** [@app.post("/data", status_code=201)] *)
Definition POST_data (body : payload) : M submit_response :=
  data <- body_SensorData body ;;
  submit_sensor_data data.

Definition get_sensor_readings (sensor_id : string) (limit : Z)
  : M (list SensorReading.t) :=
  readings <- get_latest_readings sensor_id limit ;;
  match readings with
  | [] => raise (HTTPException 404 ("No readings found for sensor: " +:+ sensor_id))
  | _ => ret readings
  end.

(** [limit: int = Query(default=10, ge=1, le=100)] *)
Definition query_limit (limit : option Z) : M Z :=
  match limit with
  | None => ret 10
  | Some n =>
      if decide (n < 1) then
        raise (RequestValidationError [("limit", "greater_than_equal")])
      else if decide (100 < n) then
        raise (RequestValidationError [("limit", "less_than_equal")])
      else ret n
  end.

(** [@app.get("/sensors/{sensor_id}/readings")] *)
Definition GET_sensor_readings (sensor_id : string) (limit : option Z)
  : M (list SensorReading.t) :=
  limit <- query_limit limit ;;
  get_sensor_readings sensor_id limit.

(** [@app.get("/sensors")] *)
Definition list_sensors : M (list string) :=
  sensors <- get_all_sensors ;;
  match sensors with
  | [] => ret []
  | _ => ret sensors
  end.

(** [@app.get("/health")] *)
Definition health_check : M health :=
  db_status <-
    try_except
      (connection <- get_db_connection ;;
       match connection with
       | Some connection => connection_close connection ;; ret "connected"
       | None => ret "disconnected"
       end)
      (fun e => Some (ret ("error: " +:+ str e))) ;;
  ret {| health_status := "healthy";
         database := db_status;
         mqtt_broker := MQTT_BROKER cfg;
         mqtt_port := MQTT_PORT cfg |}.

(** The status code FastAPI answers with: that of the route on success,
    that of an [HTTPException], 422 for a request that does not
    validate, 500 for any other exception. *)
Definition status_code {A} (success : Z) (r : result A) : Z :=
  match r with
  | Return _ => success
  | Raise (HTTPException c _) => c
  | Raise (RequestValidationError _) => 422
  | Raise _ => 500
  end.

End Server.

(** ** What the properties are stated with *)

(** The part of [on_message] before the insert, from the payload of the
    message to the validated [SensorData]; [on_message_run] below shows
    that [on_message] is this, then the insert. *)
Definition decode_message (lib : library) (msg : MQTTMessage) : M SensorData.t :=
  payload <- json_loads_decode (msg_payload msg) ;;
  ts <- getitem payload "timestamp" ;;
  t <- fromisoformat lib ts ;;
  payload <- setitem payload "timestamp" (VDatetime t) ;;
  SensorData_init lib payload.

(** The line [on_message] prints for the exception [e]. *)
Definition mqtt_error_line (e : exn) : log_line :=
  if is_JSONDecodeError e then LogJSONError e else LogProcessError e.

(** The JSON object a producer sends for a reading, as
    [generate_sensor_data] of [src/datagen.py] builds it: the timestamp in
    ISO format, the temperature as a number. *)
Definition reading_json (lib : library) (c : SensorData.t) : value :=
  VDict (<["sensor_id" := VStr (SensorData.sensor_id c)]>
        (<["device_id" := VStr (SensorData.device_id c)]>
        (<["timestamp" := VStr (datetime_isoformat lib (SensorData.timestamp c))]>
        (<["temp_value" := VFloat (SensorData.temp_value c)]> ∅)))).

(** A computation releases what it acquires: it makes at most one
    connection, a connection made during the call is closed when the call
    is over, and the connections that were there are left as they were. *)
Definition releases {A} (m : M A) : Prop :=
  forall w, let w' := snd (m w) in
    (handles_issued w <= handles_issued w' <= S (handles_issued w))%nat
    /\ (forall h, (handles_issued w <= h < handles_issued w')%nat ->
                  open_connections w' !! h = None)
    /\ (forall h, (h < handles_issued w)%nat ->
                  open_connections w' !! h = open_connections w !! h).

(** A computation acquires its own connection: it asks the engine for
    a connection exactly once; when the engine grants it, the connection
    takes a handle that was not issued before, and that handle is closed
    when the call is over; when the engine grants none, no handle is
    issued. *)
Definition acquires {A} (m : M A) : Prop :=
  forall w, let w' := snd (m w) in
    faults w' = tail (faults w)
    /\ match next_fault w with
       | Healthy | FailsAt _ _ =>
           handles_issued w' = S (handles_issued w)
           /\ open_connections w' !! handles_issued w = None
       | Unreachable _ | ConnectCrash _ =>
           handles_issued w' = handles_issued w
       end.

(** [t1] is not later than [t2]. *)
Definition datetime_le (t1 t2 : datetime) : Prop :=
  datetime_key t1 = datetime_key t2 \/ lexico (datetime_key t1) (datetime_key t2).

(** ** Examples *)

(** [n / 2] degrees: 20.5 is [half_degrees 41]. *)
Definition half_degrees (n : Z) : float := binary_normalize 53 1024 n (-1) false.

Definition at_10h (s : Z) : datetime := mk_datetime 2025 10 22 10 0 s 0.

(** The scenario of the design document, with one more reading of S1
    that shares the timestamp of the second. *)
Definition example_rows : list SensorReading.t :=
  [ SensorReading.make 1 "S1" "D1" (at_10h 0) (half_degrees 41);
    SensorReading.make 2 "S1" "D1" (at_10h 2) (half_degrees 42);
    SensorReading.make 3 "S2" "D2" (at_10h 1) (half_degrees 38);
    SensorReading.make 4 "S1" "D1" (at_10h 2) (half_degrees 43) ].

Definition example_world : world := mk_world example_rows 5 ∅ 0 [] [].

(** The example of [SensorData.Config], with a sensor_id of one's choice. *)
Definition example_body (sensor_id : string) : payload :=
  JSON (VDict (<["sensor_id" := VStr sensor_id]>
              (<["device_id" := VStr "DEVICE123"]>
              (<["timestamp" := VStr "2025-10-22T10:30:00"]>
              (<["temp_value" := VFloat (half_degrees 47)]> ∅))))).

Definition empty_world : world := mk_world [] 1 ∅ 0 [] [].

(** A payload without [temp_value]. *)
Definition malformed_payload : payload :=
  JSON (VDict (<["sensor_id" := VStr "SENSOR001"]>
              (<["device_id" := VStr "DEVICE123"]>
              (<["timestamp" := VStr "2025-10-22T10:30:00"]> ∅)))).

(** ** Invariants of the world *)

(** Every open handle was issued: the handle the next connection takes
    is free. *)
Definition handles_fresh (w : world) : Prop :=
  forall h, is_Some (open_connections w !! h) -> (h < handles_issued w)%nat.

(** The identifiers of the stored rows are distinct and below the
    counter of the table. *)
Definition ids_fresh (w : world) : Prop :=
  NoDup (SensorReading.id <$> sensor_data w)
  /\ forall r, r ∈ sensor_data w -> SensorReading.id r < auto_increment w.

(** The rows of a sensor, in the order of insertion. *)
Definition rows_of_sensor (sensor_id : string) (rows : list SensorReading.t)
  : list SensorReading.t :=
  filter (fun r => SensorReading.sensor_id r = sensor_id) rows.

(** The world with one more line printed. *)
Definition printed (l : log_line) (w : world) : world :=
  mk_world (sensor_data w) (auto_increment w) (open_connections w)
           (handles_issued w) (faults w) (stdout w ++ [l]).

(** The fields of [SensorData], in the order of their declaration. *)
Definition field_names : list string :=
  ["sensor_id"; "device_id"; "timestamp"; "temp_value"].

(** A computation leaves no connection behind: run where the open
    handles were all issued, it keeps that so and ends with the
    connections that were open when it started. *)
Definition leak_free {A} (m : M A) : Prop :=
  forall w, handles_fresh w ->
    handles_fresh (snd (m w))
    /\ open_connections (snd (m w)) = open_connections w.

(** ** The load generator ([src/datagen.py]) *)

Definition SENSOR_IDS : list string :=
  ["SENSOR001"; "SENSOR002"; "SENSOR003"; "SENSOR004"].

Definition DEVICE_IDS : list string :=
  ["DEVICE123"; "DEVICE456"; "DEVICE789"].

(** What one call of [generate_sensor_data] draws: the two indices of
    [random.choice], the clock of [datetime.now()] and the float that
    [round(random.uniform(15.0, 35.0), 2)] returns. *)
Record draws : Type := mk_draws {
  sensor_draw : nat;
  device_draw : nat;
  now : datetime;
  temp_draw : float
}.

(** [random.choice(seq)]: the element at an index within [seq]. *)
Definition choice (seq : list string) (k : nat) : string :=
  default "" (seq !! (k mod length seq)%nat).

(** The reading [generate_sensor_data] makes from its draws. *)
Definition generated_reading (dr : draws) : SensorData.t :=
  SensorData.make (choice SENSOR_IDS (sensor_draw dr))
                  (choice DEVICE_IDS (device_draw dr))
                  (now dr) (temp_draw dr).

(** The dictionary [generate_sensor_data] returns. *)
Definition generate_sensor_data (lib : library) (dr : draws) : value :=
  reading_json lib (generated_reading dr).

(** [math.isfinite(f)] *)
Definition is_finite (f : float) : bool :=
  match f with
  | S754_nan | S754_infinity _ => false
  | _ => true
  end.

(** What stops [requests] from writing [data] as the JSON body
    ([json.dumps(data, allow_nan=False)]): a [datetime] object
    ([TypeError]) or a float that is not finite ([InvalidJSONError], a
    [ValueError] to [json]), at any depth.  Where a dictionary holds
    several such values, Python meets them in the order of insertion,
    which the map does not keep; the fold takes them in the order of the
    keys. *)
Fixpoint json_dumps_error (v : value) : option exn :=
  match v with
  | VDatetime _ =>
      Some (TypeError "Object of type datetime is not JSON serializable")
  | VFloat f =>
      if is_finite f then None
      else Some (ValueError "Out of range float values are not JSON compliant")
  | VList l =>
      fold_right (fun v' later =>
                    match json_dumps_error v' with
                    | Some e => Some e
                    | None => later
                    end) None l
  | VDict d =>
      map_fold (fun _ v' later =>
                  match json_dumps_error v' with
                  | Some e => Some e
                  | None => later
                  end) None d
  | _ => None
  end.

(** What [requests.post(API_URL, json=data)] meets once the body is
    written: the server, which answers by its route [POST /data]; no
    server ([ConnectionError]); or another failure of the request. *)
Inductive network : Type :=
  | ServerUp
  | ServerDown
  | RequestError (e : string).

(** What [send_data] prints, one constructor per [print]. *)
Inductive client_line : Type :=
  | DataSent (sensor_id temp_value : value)  (* Data sent successfully: ... *)
  | ResponseMessage (message : string)       (* Response: {message} *)
  | SendFailed (status_code : Z)             (* Failed to send data. Status code: ... *)
  | ResponseText (body : result submit_response)  (* Response: {response.text} *)
  | ConnectionErrorLine                      (* Connection error. Make sure ... *)
  | ErrorLine (e : exn).                     (* Error: {str(e)} *)

(** [send_data(data)]: the lines the generator prints, and the world of
    the server after the request.  [requests.post] writes the body before
    it connects, so data that cannot be written raises whether there is a
    server or not; the response is what the route [POST /data] of the
    server answers to the body, which it decodes to [data] again. *)
Definition send_data (lib : library) (net : network) (data : value)
  : world -> list client_line * world := fun w =>
  match json_dumps_error data with
  | Some e => ([ErrorLine e], w)
  | None =>
      match net with
      | ServerDown => ([ConnectionErrorLine], w)
      | RequestError e => ([ErrorLine (OtherException e)], w)
      | ServerUp =>
          let (response, w') := POST_data lib (JSON data) w in
          if status_code 201 response =? 201 then
            match data with
            | VDict d =>
                match d !! "sensor_id", d !! "temp_value" with
                | Some s, Some t =>
                    match response with
                    | Return body =>
                        ([DataSent s t; ResponseMessage (message body)], w')
                    | Raise _ =>
                        ([DataSent s t; ErrorLine (KeyError "message")], w')
                    end
                | None, _ => ([ErrorLine (KeyError "sensor_id")], w')
                | _, None => ([ErrorLine (KeyError "temp_value")], w')
                end
            | _ => ([ErrorLine (TypeError "object is not subscriptable")], w')
            end
          else ([SendFailed (status_code 201 response); ResponseText response], w')
      end
  end.

(** The loop of [main], for the rounds that ran before the interrupt:
    each round draws a reading and sends it (and sleeps); [rounds] gives
    the draws of each round and what its request meets.  The lines
    printed come first to last. *)
Fixpoint main_loop (lib : library) (rounds : list (draws * network))
  : world -> list client_line * world := fun w =>
  match rounds with
  | [] => ([], w)
  | (dr, net) :: rest =>
      let (out, w1) := send_data lib net (generate_sensor_data lib dr) w in
      let (out', w2) := main_loop lib rest w1 in
      (out ++ out', w2)
  end.

(** * Properties *)

Arguments select_latest : simpl never.
Arguments select_distinct_sensor_id : simpl never.

(** ** The orders of the two queries *)

Global Instance latest_first_total : Total latest_first.
Proof.
  intros a b. unfold latest_first.
  destruct (trichotomy lexico (sort_key a) (sort_key b)) as [H|[H|H]]; auto.
Qed.

Global Instance latest_first_trans : Transitive latest_first.
Proof.
  intros a b c [Hab|Hab] [Hbc|Hbc]; unfold latest_first.
  - left. congruence.
  - right. rewrite Hab. exact Hbc.
  - right. rewrite <- Hbc. exact Hab.
  - right. etrans; eauto.
Qed.

Lemma string_key_inj a b : string_key a = string_key b -> a = b.
Proof.
  unfold string_key. intros H.
  rewrite <- (String.string_of_list_ascii_of_string a).
  rewrite <- (String.string_of_list_ascii_of_string b).
  f_equal. revert H.
  generalize (String.list_ascii_of_string a) (String.list_ascii_of_string b).
  induction l as [|x l IH]; intros [|y l'] H; simpl in H; try discriminate; auto.
  injection H as Hxy Hl. f_equal; auto.
  rewrite <- (Ascii.ascii_N_embedding x), <- (Ascii.ascii_N_embedding y).
  congruence.
Qed.

Global Instance string_le_total : Total string_le.
Proof.
  intros a b. unfold string_le.
  destruct (trichotomy lexico (string_key a) (string_key b)) as [H|[H|H]]; auto.
  left. left. by apply string_key_inj.
Qed.

Global Instance string_le_trans : Transitive string_le.
Proof.
  intros a b c [Hab|Hab] [Hbc|Hbc]; unfold string_le; subst; auto.
  right. etrans; eauto.
Qed.

Global Instance string_le_antisym : AntiSymm (=) string_le.
Proof.
  intros a b [Hab|Hab] [Hba|Hba]; auto.
  exfalso. apply (irreflexivity lexico (string_key a)). etrans; eauto.
Qed.

(** ** Running the storage operations *)

(** Unfolds a storage operation and splits on what the storage engine
    does at this connection attempt. *)
Ltac storage_cases w :=
  unfold get_db_connection, mysql_connect, open_connection,
    connection_cursor, execute_insert, execute_latest, execute_distinct,
    connection_commit, cursor_fetchall, cursor_close, connection_close,
    attempt, print, try_except, bind, ret, raise;
  destruct (next_fault w) as [|?e|?e|[] ?e]; cbn;
  rewrite ?lookup_insert_eq; cbn.

(** What [insert_sensor_data] returns, stores and prints, by the
    behaviour of the storage engine. *)
Lemma insert_sensor_data_run data w :
  let r := insert_sensor_data data w in
  match next_fault w with
  | Healthy | FailsAt AtFetchall _ =>
      fst r = Return (auto_increment w)
      /\ sensor_data (snd r) = sensor_data w ++ [row_of (auto_increment w) data]
      /\ stdout (snd r) = stdout w
  | Unreachable e =>
      fst r = Raise (HTTPException 500 "Database connection failed")
      /\ sensor_data (snd r) = sensor_data w
      /\ stdout (snd r) = stdout w ++ [LogConnectError e]
  | ConnectCrash e =>
      fst r = Raise (OtherException e)
      /\ sensor_data (snd r) = sensor_data w
      /\ stdout (snd r) = stdout w
  | FailsAt _ e =>
      fst r = Raise (HTTPException 500 ("Database error: " +:+ e))
      /\ sensor_data (snd r) = sensor_data w
      /\ stdout (snd r) = stdout w ++ [LogInsertError e]
  end.
Proof.
  unfold insert_sensor_data. storage_cases w; auto.
Qed.

(** An insert that raises leaves the table as it was. *)
Lemma insert_sensor_data_raise data w e w' :
  insert_sensor_data data w = (Raise e, w') -> sensor_data w' = sensor_data w.
Proof.
  intros H. pose proof (insert_sensor_data_run data w) as R.
  rewrite H in R. cbn in R.
  destruct (next_fault w) as [|?|?|[] ?]; destruct R as (R1 & R2 & _);
    solve [discriminate R1 | exact R2].
Qed.

(** An insert that returns has appended exactly one row, the reading
    under the identifier returned. *)
Lemma insert_sensor_data_return data w i w' :
  insert_sensor_data data w = (Return i, w') ->
  i = auto_increment w /\ sensor_data w' = sensor_data w ++ [row_of i data].
Proof.
  intros H. pose proof (insert_sensor_data_run data w) as R.
  rewrite H in R. cbn in R.
  destruct (next_fault w) as [|?|?|[] ?]; destruct R as (R1 & R2 & _);
    try discriminate R1; injection R1 as ->; auto.
Qed.

Lemma get_latest_readings_return sensor limit w rows w' :
  get_latest_readings sensor limit w = (Return rows, w') ->
  rows = select_latest (sensor_data w) sensor limit
  /\ 0 <= limit
  /\ sensor_data w' = sensor_data w.
Proof.
  unfold get_latest_readings. storage_cases w; try case_decide; cbn;
    intros Hr; inversion Hr; subst; cbn; repeat split; auto; lia.
Qed.

Lemma get_latest_readings_healthy sensor limit w :
  next_fault w = Healthy -> 0 <= limit ->
  fst (get_latest_readings sensor limit w)
  = Return (select_latest (sensor_data w) sensor limit).
Proof.
  intros Hf Hl. unfold get_latest_readings. storage_cases w; try discriminate Hf.
  case_decide; [lia | reflexivity].
Qed.

Lemma get_all_sensors_return w l w' :
  get_all_sensors w = (Return l, w') ->
  l = select_distinct_sensor_id (sensor_data w)
  /\ sensor_data w' = sensor_data w.
Proof.
  unfold get_all_sensors. storage_cases w;
    intros H; inversion H; subst; cbn; auto.
Qed.

(** ** Connections *)

(** Closes the goals of [releases]: the bounds on the handles issued, and
    the lookups of a handle in the map of open connections. *)
Ltac handle_lookup :=
  cbn in *;
  match goal with
  | |- (_ <= _)%nat => lia
  | Hh : (?a <= ?h < ?a)%nat |- _ => lia
  | Hh : (?a <= ?h < S ?a)%nat |- _ =>
      assert (h = a) as -> by lia; apply lookup_delete_eq
  | Hh : (?h < ?a)%nat |- _ =>
      rewrite ?lookup_delete_ne, ?lookup_insert_ne by lia; reflexivity
  end.

Lemma insert_sensor_data_releases data : releases (insert_sensor_data data).
Proof.
  intros w. unfold insert_sensor_data. storage_cases w.
  all: repeat split; try intros h Hh; handle_lookup.
Qed.

Lemma get_latest_readings_releases sensor limit :
  releases (get_latest_readings sensor limit).
Proof.
  intros w. unfold get_latest_readings. storage_cases w; try case_decide; cbn.
  all: repeat split; try intros h Hh; handle_lookup.
Qed.

Lemma get_all_sensors_releases : releases get_all_sensors.
Proof.
  intros w. unfold get_all_sensors. storage_cases w.
  all: repeat split; try intros h Hh; handle_lookup.
Qed.

Lemma insert_sensor_data_acquires data : acquires (insert_sensor_data data).
Proof.
  intros w. unfold insert_sensor_data. storage_cases w.
  all: repeat split; apply lookup_delete_eq.
Qed.

Lemma get_latest_readings_acquires sensor limit :
  acquires (get_latest_readings sensor limit).
Proof.
  intros w. unfold get_latest_readings. storage_cases w; try case_decide; cbn.
  all: repeat split; apply lookup_delete_eq.
Qed.

Lemma get_all_sensors_acquires : acquires get_all_sensors.
Proof.
  intros w. unfold get_all_sensors. storage_cases w.
  all: repeat split; apply lookup_delete_eq.
Qed.

(** ** The results of the queries *)

Lemma datetime_key_inj t1 t2 : datetime_key t1 = datetime_key t2 -> t1 = t2.
Proof.
  destruct t1, t2. unfold datetime_key. cbn.
  intros H. injection H. intros. by subst.
Qed.

Lemma datetime_le_antisym t1 t2 :
  datetime_le t1 t2 -> datetime_le t2 t1 -> t1 = t2.
Proof.
  intros [H12|H12] [H21|H21]; try by apply datetime_key_inj.
  exfalso. apply (irreflexivity lexico (datetime_key t1)). etrans; eauto.
Qed.

(** What [ORDER BY timestamp DESC, id DESC] says of two rows in order. *)
Lemma latest_first_spelled a b :
  latest_first a b ->
  datetime_le (SensorReading.timestamp b) (SensorReading.timestamp a)
  /\ (SensorReading.timestamp a = SensorReading.timestamp b ->
      SensorReading.id b <= SensorReading.id a).
Proof.
  unfold latest_first, sort_key, datetime_le.
  intros [Heq | [Hlt | [Heq Hlt]]].
  - apply pair_equal_spec in Heq as [Hk Hi].
    split; [by left | intros _; lia].
  - split; [by right |].
    intros Ht. cbn in Hlt. rewrite Ht in Hlt.
    by apply (irreflexivity lexico) in Hlt.
  - split; [by left |]. intros _. cbn in Hlt.
    unfold lexico, Z_lexico in Hlt. lia.
Qed.

Section sorted_lists.
Context {A : Type} (R : relation A).

Lemma StronglySorted_take n l :
  StronglySorted R l -> StronglySorted R (take n l).
Proof.
  intros H. rewrite <- (take_drop n l) in H.
  by apply StronglySorted_app_1_l in H.
Qed.

Lemma StronglySorted_lookup l i j a b :
  StronglySorted R l -> (i < j)%nat ->
  l !! i = Some a -> l !! j = Some b -> R a b.
Proof.
  intros H. revert i j. induction H as [|x l Hl IH Hx]; intros i j Hij Hi Hj.
  - by rewrite lookup_nil in Hi.
  - destruct j as [|j]; [lia |]. cbn in Hj.
    destruct i as [|i]; cbn in Hi.
    + injection Hi as ->. rewrite Forall_forall in Hx.
      apply Hx. by eapply list_elem_of_lookup_2.
    + apply (IH i j); [lia | done | done].
Qed.
End sorted_lists.

Lemma select_latest_sorted rows sensor limit :
  StronglySorted latest_first (select_latest rows sensor limit).
Proof.
  unfold select_latest. apply StronglySorted_take.
  apply (StronglySorted_merge_sort latest_first).
Qed.

Lemma select_latest_length rows sensor limit :
  (length (select_latest rows sensor limit) <= Z.to_nat limit)%nat.
Proof. unfold select_latest. rewrite length_take. lia. Qed.

Lemma select_latest_elem_of rows sensor limit r :
  r ∈ select_latest rows sensor limit ->
  r ∈ rows /\ SensorReading.sensor_id r = sensor.
Proof.
  unfold select_latest. intros H.
  apply elem_of_take in H as (i & Hi & _).
  apply list_elem_of_lookup_2 in Hi.
  rewrite merge_sort_Permutation in Hi.
  apply list_elem_of_filter in Hi. tauto.
Qed.

Lemma select_distinct_sorted rows :
  StronglySorted string_le (select_distinct_sensor_id rows).
Proof. apply (StronglySorted_merge_sort string_le). Qed.

Lemma select_distinct_NoDup rows : NoDup (select_distinct_sensor_id rows).
Proof.
  unfold select_distinct_sensor_id.
  rewrite merge_sort_Permutation. apply NoDup_remove_dups.
Qed.

Lemma select_distinct_elem_of rows s :
  s ∈ select_distinct_sensor_id rows <->
  exists r, r ∈ rows /\ SensorReading.sensor_id r = s.
Proof.
  unfold select_distinct_sensor_id.
  rewrite merge_sort_Permutation, elem_of_remove_dups, list_elem_of_fmap.
  split; intros (r & H1 & H2); exists r; auto.
Qed.

Example latest_S1 :
  fst (get_latest_readings "S1" 10 example_world)
  = Return [ SensorReading.make 4 "S1" "D1" (at_10h 2) (half_degrees 43);
             SensorReading.make 2 "S1" "D1" (at_10h 2) (half_degrees 42);
             SensorReading.make 1 "S1" "D1" (at_10h 0) (half_degrees 41) ].
Proof. vm_compute. reflexivity. Qed.

Example latest_S1_limit_2 :
  fst (get_latest_readings "S1" 2 example_world)
  = Return [ SensorReading.make 4 "S1" "D1" (at_10h 2) (half_degrees 43);
             SensorReading.make 2 "S1" "D1" (at_10h 2) (half_degrees 42) ].
Proof. vm_compute. reflexivity. Qed.

Example all_sensors_example :
  fst (get_all_sensors example_world) = Return ["S1"; "S2"].
Proof. vm_compute. reflexivity. Qed.

(** ** The latest readings of a sensor *)

(** C2. The rows [get_latest_readings] returns are sorted by timestamp,
    latest first, and of two rows with the same timestamp the one with
    the greater id comes first: for positions [i < j] holding [a] and [b],
    the timestamp of [b] is not later than that of [a], and when the two
    timestamps are equal the id of [b] is at most that of [a]. *)
Theorem latest_readings_sorted sensor limit w rows w' i j a b :
  get_latest_readings sensor limit w = (Return rows, w') ->
  (i < j)%nat -> rows !! i = Some a -> rows !! j = Some b ->
  datetime_le (SensorReading.timestamp b) (SensorReading.timestamp a)
  /\ (SensorReading.timestamp a = SensorReading.timestamp b ->
      SensorReading.id b <= SensorReading.id a).
Proof.
  intros Hrun Hij Hi Hj.
  apply get_latest_readings_return in Hrun as (-> & _ & _).
  apply latest_first_spelled.
  eapply StronglySorted_lookup; eauto using select_latest_sorted.
Qed.

Lemma latest_readings_sorted_witness :
  datetime_le (at_10h 2) (at_10h 2) /\ (at_10h 2 = at_10h 2 -> 2 <= 4).
Proof.
  eapply (latest_readings_sorted "S1" 10 example_world _ _ 0 1
            (SensorReading.make 4 "S1" "D1" (at_10h 2) (half_degrees 43))
            (SensorReading.make 2 "S1" "D1" (at_10h 2) (half_degrees 42))).
  - vm_compute. reflexivity.
  - lia.
  - reflexivity.
  - reflexivity.
Defined.

(** C6. A request for the latest readings of sensor [S] that the route
    accepts, with limit [N] (10 when the query gives none), has [N]
    between 1 and 100 and is answered with at most [N] rows, all of
    sensor [S]. *)
Theorem sensor_readings_bounded S limit w rows w' :
  GET_sensor_readings S limit w = (Return rows, w') ->
  let N := default 10 limit in
  1 <= N <= 100
  /\ Z.of_nat (length rows) <= N
  /\ Forall (fun r => SensorReading.sensor_id r = S) rows.
Proof.
  intros Hrun N.
  unfold GET_sensor_readings, query_limit, get_sensor_readings, bind, ret, raise
    in Hrun.
  assert (HN : 1 <= N <= 100 /\
               match get_latest_readings S N w with
               | (Return [], _) | (Raise _, _) => False
               | (Return rows0, w1) => rows0 = rows
               end).
  { subst N. destruct limit as [n|]; cbn in *; repeat case_decide;
      try discriminate; (split; [lia |]).
    all: destruct (get_latest_readings S _ w) as [[[|r rs]|e] w1];
      try discriminate; by injection Hrun as -> _. }
  destruct HN as [Hrange Hrows]. split; [exact Hrange |].
  destruct (get_latest_readings S N w) as [[rows0|e] w1] eqn:Hlatest;
    [| done].
  apply get_latest_readings_return in Hlatest as (-> & _ & _).
  assert (select_latest (sensor_data w) S N = rows) as <-
    by (destruct (select_latest (sensor_data w) S N); done).
  split.
  - pose proof (select_latest_length (sensor_data w) S N). lia.
  - apply Forall_forall. intros r' Hr'.
    by apply select_latest_elem_of in Hr' as [_ ?].
Qed.

Lemma sensor_readings_bounded_witness :
  1 <= 2 <= 100
  /\ Z.of_nat (length [ SensorReading.make 4 "S1" "D1" (at_10h 2) (half_degrees 43);
                        SensorReading.make 2 "S1" "D1" (at_10h 2) (half_degrees 42) ])
     <= 2
  /\ Forall (fun r => SensorReading.sensor_id r = "S1")
       [ SensorReading.make 4 "S1" "D1" (at_10h 2) (half_degrees 43);
         SensorReading.make 2 "S1" "D1" (at_10h 2) (half_degrees 42) ].
Proof.
  eapply (sensor_readings_bounded "S1" (Some 2) example_world).
  vm_compute. reflexivity.
Defined.

(** ** The list of sensors *)

(** C7. The sequence [get_all_sensors] returns is sorted in
    lexicographic order, has no duplicates and holds exactly the
    sensor_ids of the stored readings; the call leaves the table as it
    was, and a second call on it returns the same sequence. *)
Theorem all_sensors_sorted_distinct w l w' :
  get_all_sensors w = (Return l, w') ->
  StronglySorted string_le l
  /\ NoDup l
  /\ (forall s, s ∈ l <-> exists r, r ∈ sensor_data w /\ SensorReading.sensor_id r = s)
  /\ sensor_data w' = sensor_data w
  /\ (forall l2 w2, get_all_sensors w' = (Return l2, w2) -> l2 = l).
Proof.
  intros Hrun. apply get_all_sensors_return in Hrun as (-> & Hw).
  repeat split.
  - apply select_distinct_sorted.
  - apply select_distinct_NoDup.
  - apply select_distinct_elem_of.
  - apply select_distinct_elem_of.
  - exact Hw.
  - intros l2 w2 H2. apply get_all_sensors_return in H2 as (-> & _).
    by rewrite Hw.
Qed.

Lemma all_sensors_sorted_distinct_witness :
  StronglySorted string_le ["S1"; "S2"]
  /\ NoDup ["S1"; "S2"]
  /\ (forall s, s ∈ ["S1"; "S2"] <->
        exists r, r ∈ example_rows /\ SensorReading.sensor_id r = s)
  /\ sensor_data (snd (get_all_sensors example_world)) = example_rows
  /\ (forall l2 w2,
        get_all_sensors (snd (get_all_sensors example_world)) = (Return l2, w2) ->
        l2 = ["S1"; "S2"]).
Proof.
  apply (all_sensors_sorted_distinct example_world).
  vm_compute. reflexivity.
Defined.

(** ** Connections are released *)

(** C8. Each of the three storage operations acquires its own connection
    and has released it when the call is over, whether it returned or
    raised: it asks the engine for a connection exactly once, the
    connection it is granted takes a handle that was not issued before,
    that handle is closed at the end, and the connections that were open
    before are left as they were. *)
Theorem storage_operations_release data sensor limit :
  (acquires (insert_sensor_data data)
   /\ releases (insert_sensor_data data))
  /\ (acquires (get_latest_readings sensor limit)
      /\ releases (get_latest_readings sensor limit))
  /\ (acquires get_all_sensors
      /\ releases get_all_sensors).
Proof.
  split; [| split]; split.
  - apply insert_sensor_data_acquires.
  - apply insert_sensor_data_releases.
  - apply get_latest_readings_acquires.
  - apply get_latest_readings_releases.
  - apply get_all_sensors_acquires.
  - apply get_all_sensors_releases.
Qed.

(** ** The health probe *)

(** C9. [health_check] always returns a response, whatever the storage
    engine does: its [database] field is [connected] when a connection
    was made, [disconnected] when the engine could not be reached and
    [error: ...] when the attempt raised; the broker address is the
    configured one; the connection made for the probe is released. *)
Theorem health_check_always_responds cfg w :
  (exists h w',
     health_check cfg w = (Return h, w')
     /\ database h =
          match next_fault w with
          | Healthy | FailsAt _ _ => "connected"
          | Unreachable _ => "disconnected"
          | ConnectCrash e => "error: " +:+ e
          end
     /\ mqtt_broker h = MQTT_BROKER cfg
     /\ mqtt_port h = MQTT_PORT cfg
     /\ sensor_data w' = sensor_data w)
  /\ releases (health_check cfg).
Proof.
  split.
  - unfold health_check. storage_cases w.
    all: eexists; eexists; repeat split; reflexivity.
  - intros w0. unfold health_check. storage_cases w0.
    all: repeat split; try intros h Hh; handle_lookup.
Qed.

(** ** Listing the sensors *)

(** C5 as stated fails: when the storage engine cannot be reached,
    [list_sensors] raises the [HTTPException] of [get_all_sensors] and
    the request is answered with status 500. *)
Lemma list_sensors_fails_when_unreachable :
  let w := mk_world example_rows 5 ∅ 0
             [Unreachable "Can't connect to MySQL server"] [] in
  fst (list_sensors w) = Raise (HTTPException 500 "Database connection failed")
  /\ status_code 200 (fst (list_sensors w)) = 500.
Proof. split; reflexivity. Qed.

(** C5, amended. When a connection is made and the query is not refused,
    [list_sensors] answers with the distinct sensor_ids of the table, an
    empty table giving the empty sequence; when the connection fails or
    the query is refused, it fails and the request is answered with
    status 500. *)
Theorem list_sensors_outcome w :
  match next_fault w with
  | Healthy | FailsAt AtCommit _ =>
      fst (list_sensors w) = Return (select_distinct_sensor_id (sensor_data w))
      /\ select_distinct_sensor_id [] = []
  | _ =>
      exists e, fst (list_sensors w) = Raise e
                /\ status_code 200 (fst (list_sensors w)) = 500
  end.
Proof.
  unfold list_sensors, get_all_sensors. storage_cases w.
  all: try (eexists; split; reflexivity).
  all: destruct (select_distinct_sensor_id (sensor_data w)); split; reflexivity.
Qed.

(** ** The synchronous endpoint *)

Lemma body_SensorData_pure lib body w :
  snd (body_SensorData lib body w) = w.
Proof.
  unfold body_SensorData.
  destruct body as [e|e|[]]; try reflexivity.
  destruct (SensorData_validate lib d); reflexivity.
Qed.

Lemma body_SensorData_raise lib body w e w' :
  body_SensorData lib body w = (Raise e, w') ->
  match body with
  | NotUnicode _ => e = HTTPException 400 "There was an error parsing the body"
  | _ => exists errs, e = RequestValidationError errs
  end.
Proof.
  unfold body_SensorData.
  destruct body as [?|?|[]]; try (intros [= <- <-]; eauto).
  destruct (SensorData_validate lib d); intros [= <- <-]; eauto.
Qed.

(** C4. A request to [POST /data] whose body does not validate is
    answered with 422, or with 400 when its bytes cannot be decoded, and
    leaves the whole world untouched: no connection is made, nothing is
    written.  A request whose body validates either returns the
    identifier of the one row it has appended to the table, or fails with
    status 500 and leaves the table as it was. *)
Theorem submit_all_or_nothing lib body w :
  match body_SensorData lib body w with
  | (Raise e, _) =>
      POST_data lib body w = (Raise e, w)
      /\ status_code 201 (fst (POST_data lib body w))
         = match body with NotUnicode _ => 400 | _ => 422 end
  | (Return data, _) =>
      match POST_data lib body w with
      | (Return resp, w') =>
          record_id resp = auto_increment w
          /\ sensor_data w' = sensor_data w ++ [row_of (record_id resp) data]
      | (Raise e, w') =>
          sensor_data w' = sensor_data w
          /\ status_code 201 (fst (POST_data lib body w)) = 500
      end
  end.
Proof.
  pose proof (body_SensorData_pure lib body w) as Hpure.
  destruct (body_SensorData lib body w) as [[data|e] w1] eqn:Hbody;
    cbn in Hpure; subst w1.
  - assert (POST_data lib body w = submit_sensor_data lib data w) as ->
      by (unfold POST_data, bind; by rewrite Hbody).
    unfold submit_sensor_data, bind, print, ret.
    pose proof (insert_sensor_data_run data w) as R.
    destruct (insert_sensor_data data w) as [[i|e] w1] eqn:Hins; cbn in *.
    + apply insert_sensor_data_return in Hins as [-> ->]. auto.
    + apply insert_sensor_data_raise in Hins. split; [done |].
      destruct (next_fault w) as [|?|?|[] ?]; destruct R as (R1 & _);
        try discriminate R1; injection R1 as ->; reflexivity.
  - assert (POST_data lib body w = (Raise e, w)) as ->
      by (unfold POST_data, bind; by rewrite Hbody).
    apply body_SensorData_raise in Hbody.
    destruct body; [subst e | destruct Hbody as [errs ->] ..]; auto.
Qed.

(** C1 as stated fails: the body of the [SensorData] example with an
    empty [sensor_id] validates, and the reading is stored. *)
Lemma empty_sensor_id_is_stored :
  exists resp w',
    POST_data reference_library (example_body "") empty_world = (Return resp, w')
    /\ record_id resp = 1
    /\ sensor_data w' =
         [SensorReading.make 1 "" "DEVICE123"
            (mk_datetime 2025 10 22 10 30 0 0) (half_degrees 47)].
Proof. eexists. eexists. split; [vm_compute; reflexivity | split; reflexivity]. Qed.

(** The errors of a field name that field. *)
Lemma field_errors {A} d name (validate : value -> option A) ty errs n t :
  field d name validate ty = inl errs -> (n, t) ∈ errs -> n = name.
Proof.
  unfold field. destruct (d !! name) as [v|]; [destruct (validate v) |];
    intros [= <-]; rewrite list_elem_of_singleton; by intros [= -> _].
Qed.

Lemma field_sensor_id d :
  field d "sensor_id" validate_str "string_type" =
  match d !! "sensor_id" with
  | Some (VStr s) => inr s
  | Some _ => inl [("sensor_id", "string_type")]
  | None => inl [("sensor_id", "missing")]
  end.
Proof. unfold field. by destruct (d !! "sensor_id") as [[]|]. Qed.

(** C1, amended. A body whose [sensor_id] is missing or is not a string
    is rejected with a validation error (422) that names [sensor_id], and
    the world is untouched.  A [sensor_id] that is a string, empty or
    not, raises no error for that field: when the other fields validate
    the handler runs with it. *)
Theorem sensor_id_validation lib d w :
  match d !! "sensor_id" with
  | Some (VStr s) =>
      match SensorData_validate lib d with
      | inr data =>
          SensorData.sensor_id data = s
          /\ POST_data lib (JSON (VDict d)) w = submit_sensor_data lib data w
      | inl errs => forall type, ("sensor_id", type) ∉ errs
      end
  | _ =>
      exists errs type,
        POST_data lib (JSON (VDict d)) w = (Raise (RequestValidationError errs), w)
        /\ ("sensor_id", type) ∈ errs
        /\ status_code 201 (fst (POST_data lib (JSON (VDict d)) w)) = 422
  end.
Proof.
  pose proof (field_sensor_id d) as Hf.
  unfold POST_data, bind, body_SensorData, SensorData_validate, ret, raise.
  destruct (d !! "sensor_id") as [[]|]; rewrite Hf; cbn.
  5: {
    destruct (field d "device_id" _ _) as [e2|?] eqn:H2;
    destruct (field d "timestamp" _ _) as [e3|?] eqn:H3;
    destruct (field d "temp_value" _ _) as [e4|?] eqn:H4; cbn.
    all: try (split; reflexivity).
    all: intros type Hin; repeat rewrite elem_of_app in Hin.
    all: repeat match goal with
           | H : _ \/ _ |- _ => destruct H
           | H : _ ∈ [] |- _ => by apply elem_of_nil in H
           | H : (_, _) ∈ ?e, Hf : field _ _ _ _ = inl ?e |- _ =>
               by apply (field_errors _ _ _ _ _ _ _ Hf) in H
           end. }
  all: eexists; eexists; split; [reflexivity | split; [| reflexivity]].
  all: apply list_elem_of_here.
Qed.

(** ** The asynchronous listener *)

Lemma decode_message_pure lib msg w : snd (decode_message lib msg w) = w.
Proof.
  unfold decode_message, bind, json_loads_decode, getitem, fromisoformat,
    setitem, SensorData_init, ret, raise.
  destruct (msg_payload msg) as [?|?|[]]; try reflexivity.
  destruct (d !! "timestamp") as [[]|]; try reflexivity.
  destruct (datetime_fromisoformat lib s); try reflexivity.
  destruct (SensorData_validate lib _); reflexivity.
Qed.

(** [on_message] is the decoding, then the insert, then one line printed:
    the exception caught, or the reading received. *)
Lemma on_message_run lib msg w :
  on_message lib msg w =
  match decode_message lib msg w with
  | (Raise e, _) => print (mqtt_error_line e) w
  | (Return data, _) =>
      match insert_sensor_data data w with
      | (Return i, w1) => print (LogReceivedMQTT i data) w1
      | (Raise e, w1) => print (mqtt_error_line e) w1
      end
  end.
Proof.
  unfold on_message, decode_message, try_except, bind, json_loads_decode,
    getitem, fromisoformat, setitem, SensorData_init, ret, raise.
  destruct (msg_payload msg) as [?|?|[]]; try reflexivity.
  destruct (d !! "timestamp") as [[]|]; try reflexivity.
  destruct (datetime_fromisoformat lib s); try reflexivity.
  destruct (SensorData_validate lib _) as [errs|data]; try reflexivity.
  destruct (insert_sensor_data data w) as [[i|e] w1]; try reflexivity.
  unfold mqtt_error_line. by destruct (is_JSONDecodeError e).
Qed.

(** An exception of [insert_sensor_data] is not a [JSONDecodeError]. *)
Lemma insert_sensor_data_error_line data w e w' :
  insert_sensor_data data w = (Raise e, w') ->
  mqtt_error_line e = LogProcessError e.
Proof.
  intros H. pose proof (insert_sensor_data_run data w) as R.
  rewrite H in R. cbn in R.
  destruct (next_fault w) as [|?|?|[] ?]; destruct R as (R1 & _);
    try discriminate R1; by injection R1 as ->.
Qed.

(** C3. [on_message] never lets an exception out, so the loop goes on
    with the messages that follow.  A message that fails decoding or
    validation changes nothing in the world but the one line printed for
    the failure: no reading is stored and storage is not touched.  A
    message whose insert fails leaves the table as it was and prints the
    failure. *)
Theorem on_message_isolates_failures lib msg rest w :
  exists w',
    on_message lib msg w = (Return tt, w')
    /\ mqtt_loop lib (msg :: rest) w = mqtt_loop lib rest w'
    /\ match decode_message lib msg w with
       | (Raise e, _) =>
           w' = mk_world (sensor_data w) (auto_increment w)
                  (open_connections w) (handles_issued w) (faults w)
                  (stdout w ++ [mqtt_error_line e])
       | (Return data, _) =>
           match insert_sensor_data data w with
           | (Raise e, w1) =>
               sensor_data w' = sensor_data w
               /\ stdout w' = stdout w1 ++ [LogProcessError e]
           | (Return i, w1) =>
               sensor_data w' = sensor_data w ++ [row_of i data]
               /\ stdout w' = stdout w1 ++ [LogReceivedMQTT i data]
           end
       end.
Proof.
  assert (Hloop : forall w', on_message lib msg w = (Return tt, w') ->
            mqtt_loop lib (msg :: rest) w = mqtt_loop lib rest w').
  { intros w' Hw'. cbn. unfold bind at 1. by rewrite Hw'. }
  pose proof (on_message_run lib msg w) as Hrun.
  destruct (decode_message lib msg w) as [[data|e] w0].
  - destruct (insert_sensor_data data w) as [[i|e] w1] eqn:Hins.
    + eexists. split; [exact Hrun |]. split; [by apply Hloop |].
      apply insert_sensor_data_return in Hins as [_ ->]. by cbn.
    + eexists. split; [exact Hrun |]. split; [by apply Hloop |].
      rewrite (insert_sensor_data_error_line _ _ _ _ Hins).
      apply insert_sensor_data_raise in Hins. by cbn.
  - eexists. split; [exact Hrun |]. split; [by apply Hloop | reflexivity].
Qed.

(** The scenario of the design document: a payload without [temp_value]
    is dropped and logged, and the valid message that follows is stored. *)
Example malformed_then_valid :
  exists w',
    mqtt_loop reference_library
      [mk_message "sensor/data" malformed_payload;
       mk_message "sensor/data" (example_body "SENSOR001")] empty_world
    = (Return tt, w')
    /\ sensor_data w' =
         [SensorReading.make 1 "SENSOR001" "DEVICE123"
            (mk_datetime 2025 10 22 10 30 0 0) (half_degrees 47)]
    /\ stdout w' =
         [LogProcessError (ValidationError [("temp_value", "missing")]);
          LogReceivedMQTT 1
            (SensorData.make "SENSOR001" "DEVICE123"
               (mk_datetime 2025 10 22 10 30 0 0) (half_degrees 47))].
Proof. eexists. split; [vm_compute; reflexivity | split; reflexivity]. Qed.

(** Bytes that are not JSON are dropped by the first [except] clause. *)
Example not_json_is_logged :
  on_message reference_library
    (mk_message "sensor/data" (NotJSON "Expecting value")) empty_world
  = (Return tt,
     mk_world [] 1 ∅ 0 [] [LogJSONError (JSONDecodeError "Expecting value")]).
Proof. reflexivity. Qed.

(** ** The two channels *)

(** A dictionary whose four fields validate makes the [SensorData] of
    those fields. *)
Lemma SensorData_validate_fields lib d c t :
  d !! "sensor_id" = Some (VStr (SensorData.sensor_id c)) ->
  d !! "device_id" = Some (VStr (SensorData.device_id c)) ->
  d !! "timestamp" = Some t ->
  validate_datetime lib t = Some (SensorData.timestamp c) ->
  d !! "temp_value" = Some (VFloat (SensorData.temp_value c)) ->
  SensorData_validate lib d = inr c.
Proof.
  intros Hs Hd Ht Hvt Hv. unfold SensorData_validate, field.
  rewrite Hs, Hd, Ht, Hv. cbn. rewrite Hvt. by destruct c.
Qed.

(** Replacing the timestamp string by the [datetime] pydantic would read
    from it does not change the validation. *)
Lemma SensorData_validate_parsed lib d s t :
  d !! "timestamp" = Some (VStr s) ->
  coerce_datetime lib (VStr s) = Some t ->
  SensorData_validate lib (<["timestamp" := VDatetime t]> d)
  = SensorData_validate lib d.
Proof.
  intros Hs Ht. unfold SensorData_validate, field.
  rewrite (lookup_insert_ne d "timestamp" "sensor_id"),
    (lookup_insert_ne d "timestamp" "device_id"),
    (lookup_insert_ne d "timestamp" "temp_value") by done.
  rewrite lookup_insert_eq, Hs. cbn. by rewrite Ht.
Qed.

(** On a JSON object whose timestamp string the two parsers read as the
    same [datetime], the listener and the endpoint validate alike: the
    same [SensorData], or the same list of errors. *)
Lemma channels_validate_alike lib topic d s t w :
  d !! "timestamp" = Some (VStr s) ->
  datetime_fromisoformat lib s = Some t ->
  coerce_datetime lib (VStr s) = Some t ->
  match SensorData_validate lib d with
  | inr c =>
      decode_message lib (mk_message topic (JSON (VDict d))) w = (Return c, w)
      /\ body_SensorData lib (JSON (VDict d)) w = (Return c, w)
  | inl errs =>
      decode_message lib (mk_message topic (JSON (VDict d))) w
      = (Raise (ValidationError errs), w)
      /\ body_SensorData lib (JSON (VDict d)) w
         = (Raise (RequestValidationError errs), w)
  end.
Proof.
  intros Hs Hiso Hpyd.
  unfold decode_message, bind, json_loads_decode, getitem, fromisoformat,
    setitem, SensorData_init, body_SensorData, ret, raise. cbn.
  rewrite Hs, Hiso, (SensorData_validate_parsed lib d s t Hs Hpyd).
  by destruct (SensorData_validate lib d).
Qed.

(** Looks a literal key up in a dictionary built by inserts. *)
Ltac lookup_literal :=
  repeat (rewrite lookup_insert_ne by done); by rewrite lookup_insert_eq.

(** C10. A reading sent as the JSON object of the producer is decoded to
    the same [SensorData] by the listener and by the endpoint, given that
    the library reads back the timestamp it has written; both then call
    [insert_sensor_data] on it, so from the same world both leave the
    same table, the row added carrying the four fields of the reading. *)
Theorem channels_converge lib topic c w :
  datetime_fromisoformat lib (datetime_isoformat lib (SensorData.timestamp c))
    = Some (SensorData.timestamp c) ->
  coerce_datetime lib (VStr (datetime_isoformat lib (SensorData.timestamp c)))
    = Some (SensorData.timestamp c) ->
  let msg := mk_message topic (JSON (reading_json lib c)) in
  let body := JSON (reading_json lib c) in
  decode_message lib msg w = (Return c, w)
  /\ body_SensorData lib body w = (Return c, w)
  /\ sensor_data (snd (on_message lib msg w))
     = sensor_data (snd (insert_sensor_data c w))
  /\ sensor_data (snd (POST_data lib body w))
     = sensor_data (snd (insert_sensor_data c w))
  /\ match fst (insert_sensor_data c w) with
     | Return i =>
         sensor_data (snd (insert_sensor_data c w))
         = sensor_data w ++ [row_of i c]
         /\ reading_of (row_of i c) = c
     | Raise _ => sensor_data (snd (insert_sensor_data c w)) = sensor_data w
     end.
Proof.
  intros Hiso Hpyd msg body.
  assert (Hvalid : SensorData_validate lib
            (<["sensor_id" := VStr (SensorData.sensor_id c)]>
            (<["device_id" := VStr (SensorData.device_id c)]>
            (<["timestamp" := VStr (datetime_isoformat lib
                                      (SensorData.timestamp c))]>
            (<["temp_value" := VFloat (SensorData.temp_value c)]> ∅))))
          = inr c).
  { apply (SensorData_validate_fields lib _ c
             (VStr (datetime_isoformat lib (SensorData.timestamp c))));
      [ lookup_literal | lookup_literal | lookup_literal
      | exact Hpyd | lookup_literal ]. }
  assert (Hts :
            (<["sensor_id" := VStr (SensorData.sensor_id c)]>
            (<["device_id" := VStr (SensorData.device_id c)]>
            (<["timestamp" := VStr (datetime_isoformat lib
                                      (SensorData.timestamp c))]>
            (<["temp_value" := VFloat (SensorData.temp_value c)]> ∅))))
            !! "timestamp"
            = Some (VStr (datetime_isoformat lib (SensorData.timestamp c))))
    by lookup_literal.
  pose proof (channels_validate_alike lib topic _ _ _ w Hts Hiso Hpyd)
    as Halike.
  rewrite Hvalid in Halike. destruct Halike as [Hdecode Hbody].
  change (decode_message lib msg w = (Return c, w)) in Hdecode.
  change (body_SensorData lib body w = (Return c, w)) in Hbody.
  split; [exact Hdecode |]. split; [exact Hbody |]. split; [| split].
  - rewrite on_message_run, Hdecode.
    by destruct (insert_sensor_data c w) as [[]].
  - unfold POST_data, bind at 1. rewrite Hbody.
    unfold submit_sensor_data, bind, print, ret.
    by destruct (insert_sensor_data c w) as [[]].
  - destruct (insert_sensor_data c w) as [[i|e] w1] eqn:Hins; cbn.
    + apply insert_sensor_data_return in Hins as [_ ->].
      split; [done | by destruct c].
    + by apply insert_sensor_data_raise in Hins.
Qed.

Lemma channels_converge_witness :
  let c := SensorData.make "SENSOR001" "DEVICE123"
             (mk_datetime 2025 10 22 10 30 0 0) (half_degrees 47) in
  let msg := mk_message "sensor/data" (JSON (reading_json reference_library c)) in
  let body := JSON (reading_json reference_library c) in
  decode_message reference_library msg empty_world = (Return c, empty_world)
  /\ body_SensorData reference_library body empty_world = (Return c, empty_world)
  /\ sensor_data (snd (on_message reference_library msg empty_world))
     = sensor_data (snd (insert_sensor_data c empty_world))
  /\ sensor_data (snd (POST_data reference_library body empty_world))
     = sensor_data (snd (insert_sensor_data c empty_world))
  /\ match fst (insert_sensor_data c empty_world) with
     | Return i =>
         sensor_data (snd (insert_sensor_data c empty_world))
         = sensor_data empty_world ++ [row_of i c]
         /\ reading_of (row_of i c) = c
     | Raise _ =>
         sensor_data (snd (insert_sensor_data c empty_world))
         = sensor_data empty_world
     end.
Proof.
  apply (channels_converge reference_library "sensor/data"
           (SensorData.make "SENSOR001" "DEVICE123"
              (mk_datetime 2025 10 22 10 30 0 0) (half_degrees 47))
           empty_world).
  - reflexivity.
  - reflexivity.
Defined.

(** * Further properties *)

(** ** Reading does not write *)

Lemma get_latest_readings_table sensor limit w :
  sensor_data (snd (get_latest_readings sensor limit w)) = sensor_data w
  /\ auto_increment (snd (get_latest_readings sensor limit w)) = auto_increment w.
Proof.
  unfold get_latest_readings. storage_cases w; try case_decide; cbn; auto.
Qed.

Lemma get_all_sensors_table w :
  sensor_data (snd (get_all_sensors w)) = sensor_data w
  /\ auto_increment (snd (get_all_sensors w)) = auto_increment w.
Proof. unfold get_all_sensors. storage_cases w; auto. Qed.

(** X1. The two queries, the routes over them and the health probe never
    change the table or its counter, whether they return or raise. *)
Theorem reads_do_not_write cfg sensor limit query w :
  let unchanged (w' : world) :=
    sensor_data w' = sensor_data w /\ auto_increment w' = auto_increment w in
  unchanged (snd (get_latest_readings sensor limit w))
  /\ unchanged (snd (get_all_sensors w))
  /\ unchanged (snd (GET_sensor_readings sensor query w))
  /\ unchanged (snd (list_sensors w))
  /\ unchanged (snd (health_check cfg w)).
Proof.
  intros unchanged. subst unchanged. cbn beta.
  pose proof (get_latest_readings_table sensor) as Hlatest.
  pose proof (get_all_sensors_table w) as Hall.
  split; [apply Hlatest |]. split; [exact Hall |]. split; [| split].
  - unfold GET_sensor_readings, query_limit, get_sensor_readings, bind, ret, raise.
    destruct query as [n|]; repeat case_decide; cbn; auto.
    all: match goal with
         | |- context [get_latest_readings ?s ?n ?w0] =>
             specialize (Hlatest n w0);
             destruct (get_latest_readings s n w0) as [[[|]|] ?]; cbn in *; auto
         end.
  - unfold list_sensors, bind, ret.
    destruct (get_all_sensors w) as [[[|]|] ?]; cbn in *; auto.
  - unfold health_check. storage_cases w; auto.
Qed.

(** ** The route of the latest readings *)

Lemma select_latest_nil rows sensor limit :
  1 <= limit ->
  select_latest rows sensor limit = [] <-> rows_of_sensor sensor rows = [].
Proof.
  intros Hl. unfold select_latest, rows_of_sensor. split.
  - intros H. apply take_nil_inv in H as [H|H]; [lia |].
    apply Permutation_nil_r. by rewrite <- H, merge_sort_Permutation.
  - intros ->. cbn. apply take_nil.
Qed.

(** X2. With storage answering, [get_sensor_readings] raises 404 exactly
    when the table holds no row of the sensor, and otherwise returns a
    list that is not empty. *)
Theorem sensor_readings_not_found S N w :
  next_fault w = Healthy -> 1 <= N ->
  match rows_of_sensor S (sensor_data w) with
  | [] =>
      fst (get_sensor_readings S N w)
      = Raise (HTTPException 404 ("No readings found for sensor: " +:+ S))
  | _ :: _ =>
      exists r rows, fst (get_sensor_readings S N w) = Return (r :: rows)
  end.
Proof.
  intros Hf HN. unfold get_sensor_readings, bind, ret, raise.
  pose proof (get_latest_readings_healthy S N w Hf ltac:(lia)) as Hrun.
  pose proof (select_latest_nil (sensor_data w) S N HN) as Hnil.
  destruct (get_latest_readings S N w) as [r w1]. cbn in Hrun. subst r.
  destruct (rows_of_sensor S (sensor_data w)) as [|r0 rs];
    destruct Hnil as [Hnil1 Hnil2].
  - rewrite Hnil2 by reflexivity. reflexivity.
  - destruct (select_latest (sensor_data w) S N) as [|r rows]; cbn; eauto.
    by specialize (Hnil1 eq_refl).
Qed.

Lemma sensor_readings_not_found_witness :
  fst (get_sensor_readings "unknown-sensor" 5 example_world)
  = Raise (HTTPException 404 "No readings found for sensor: unknown-sensor").
Proof.
  apply (sensor_readings_not_found "unknown-sensor" 5 example_world);
    [reflexivity | lia].
Defined.

(** X3. A limit below 1 or above 100 is refused with a validation error
    (422) before storage is touched: the world is as it was. *)
Theorem limit_out_of_bounds S n w :
  n < 1 \/ 100 < n ->
  exists errs,
    GET_sensor_readings S (Some n) w = (Raise (RequestValidationError errs), w)
    /\ status_code 200 (fst (GET_sensor_readings S (Some n) w)) = 422.
Proof.
  intros Hn. unfold GET_sensor_readings, query_limit, bind, raise.
  repeat case_decide; try lia; eauto.
Qed.

Lemma limit_out_of_bounds_witness :
  exists errs,
    GET_sensor_readings "S1" (Some 101) example_world
    = (Raise (RequestValidationError errs), example_world)
    /\ status_code 200 (fst (GET_sensor_readings "S1" (Some 101) example_world))
       = 422.
Proof. apply (limit_out_of_bounds "S1" 101 example_world). right. lia. Defined.

(** X4. [get_latest_readings] returns as many rows as the limit allows:
    the smaller of the limit and the number of rows of the sensor; when
    the sensor has no more rows than the limit, they are all returned. *)
Theorem latest_readings_complete S N w rows w' :
  get_latest_readings S N w = (Return rows, w') ->
  length rows = Nat.min (Z.to_nat N) (length (rows_of_sensor S (sensor_data w)))
  /\ (Z.of_nat (length (rows_of_sensor S (sensor_data w))) <= N ->
      rows ≡ₚ rows_of_sensor S (sensor_data w)).
Proof.
  intros Hrun. apply get_latest_readings_return in Hrun as (-> & HN & _).
  unfold select_latest, rows_of_sensor.
  set (matching := filter _ (sensor_data w)).
  assert (Hlen : length (merge_sort latest_first matching) = length matching)
    by (by rewrite merge_sort_Permutation).
  split.
  - by rewrite length_take, Hlen.
  - intros Hall. rewrite take_ge by lia. apply merge_sort_Permutation.
Qed.

Lemma latest_readings_complete_witness :
  let rows := [ SensorReading.make 4 "S1" "D1" (at_10h 2) (half_degrees 43);
                SensorReading.make 2 "S1" "D1" (at_10h 2) (half_degrees 42);
                SensorReading.make 1 "S1" "D1" (at_10h 0) (half_degrees 41) ] in
  length rows = Nat.min (Z.to_nat 10) (length (rows_of_sensor "S1" example_rows))
  /\ (Z.of_nat (length (rows_of_sensor "S1" example_rows)) <= 10 ->
      rows ≡ₚ rows_of_sensor "S1" example_rows).
Proof.
  eapply (latest_readings_complete "S1" 10 example_world).
  vm_compute. reflexivity.
Defined.

(** X5. The rows returned are the latest ones: a row of the sensor that
    the limit has left out is not later than any row returned, and when
    it has the timestamp of a row returned its id is not greater. *)
Theorem latest_readings_are_latest S N w rows w' a b :
  get_latest_readings S N w = (Return rows, w') ->
  a ∈ rows ->
  b ∈ sensor_data w -> SensorReading.sensor_id b = S -> b ∉ rows ->
  datetime_le (SensorReading.timestamp b) (SensorReading.timestamp a)
  /\ (SensorReading.timestamp a = SensorReading.timestamp b ->
      SensorReading.id b <= SensorReading.id a).
Proof.
  intros Hrun Ha Hb HS Hnot.
  apply get_latest_readings_return in Hrun as (-> & _ & _).
  apply latest_first_spelled. unfold select_latest in Ha, Hnot.
  set (sorted := merge_sort latest_first
                   (filter (fun r => SensorReading.sensor_id r = S) (sensor_data w)))
    in *.
  assert (Hsorted : StronglySorted latest_first sorted)
    by apply (StronglySorted_merge_sort latest_first).
  assert (Hin : b ∈ sorted).
  { unfold sorted. rewrite merge_sort_Permutation.
    apply list_elem_of_filter. auto. }
  rewrite <- (take_drop (Z.to_nat N) sorted) in Hsorted, Hin.
  apply elem_of_app in Hin as [Hin|Hin]; [done |].
  by eapply StronglySorted_app_1_elem_of.
Qed.

Lemma latest_readings_are_latest_witness :
  datetime_le (at_10h 0) (at_10h 2) /\ (at_10h 2 = at_10h 0 -> 1 <= 2).
Proof.
  eapply (latest_readings_are_latest "S1" 2 example_world _ _
            (SensorReading.make 2 "S1" "D1" (at_10h 2) (half_degrees 42))
            (SensorReading.make 1 "S1" "D1" (at_10h 0) (half_degrees 41))).
  - vm_compute. reflexivity.
  - apply list_elem_of_further, list_elem_of_here.
  - apply list_elem_of_here.
  - reflexivity.
  - intros H. apply elem_of_cons in H as [H|H]; [discriminate H |].
    apply elem_of_cons in H as [H|H]; [discriminate H |].
    by apply elem_of_nil in H.
Defined.

(** ** What an insert changes *)

(** The counter of the table after an insert. *)
Lemma insert_sensor_data_counter data w :
  let r := insert_sensor_data data w in
  auto_increment w <= auto_increment (snd r)
  /\ forall i, fst r = Return i -> auto_increment (snd r) = i + 1.
Proof.
  unfold insert_sensor_data. storage_cases w; split; try lia.
  all: intros i Hi; try discriminate Hi; by injection Hi as <-.
Qed.

Lemma rows_of_sensor_snoc S rows r :
  rows_of_sensor S (rows ++ [r])
  = rows_of_sensor S rows
    ++ (if decide (SensorReading.sensor_id r = S) then [r] else []).
Proof.
  unfold rows_of_sensor. by rewrite filter_app.
Qed.

(** X6. Identifiers are fresh: in a table whose ids are distinct and
    below the counter, the id an insert returns is greater than every id
    stored before, and the table keeps distinct ids below the counter
    whether the insert returns or raises. *)
Theorem insert_assigns_fresh_id data w :
  ids_fresh w ->
  ids_fresh (snd (insert_sensor_data data w))
  /\ forall i, fst (insert_sensor_data data w) = Return i ->
       forall r, r ∈ sensor_data w -> SensorReading.id r < i.
Proof.
  intros [Hnodup Hbelow].
  pose proof (insert_sensor_data_counter data w) as [Hmono Hnext].
  destruct (insert_sensor_data data w) as [[i|e] w1] eqn:Hrun; cbn in *.
  - apply insert_sensor_data_return in Hrun as [-> Hrows].
    specialize (Hnext _ eq_refl). split.
    + split.
      * rewrite Hrows, fmap_app. apply NoDup_app. split; [done |]. split.
        -- intros x Hx Hx'. apply list_elem_of_singleton in Hx'. subst x.
           apply list_elem_of_fmap in Hx as (r & Hr & Hin).
           apply Hbelow in Hin. cbn in Hr. lia.
        -- apply NoDup_singleton.
      * intros r Hr. rewrite Hrows in Hr.
        apply elem_of_app in Hr as [Hr|Hr].
        -- apply Hbelow in Hr. lia.
        -- apply list_elem_of_singleton in Hr. subst r. cbn. lia.
    + intros i [= <-] r Hr. by apply Hbelow.
  - apply insert_sensor_data_raise in Hrun. split; [| done].
    split; rewrite Hrun; [done |].
    intros r Hr. apply Hbelow in Hr. lia.
Qed.

Lemma insert_assigns_fresh_id_witness :
  ids_fresh (snd (insert_sensor_data
                    (SensorData.make "S2" "D2" (at_10h 3) (half_degrees 40))
                    example_world))
  /\ forall i,
       fst (insert_sensor_data
              (SensorData.make "S2" "D2" (at_10h 3) (half_degrees 40))
              example_world) = Return i ->
       forall r, r ∈ sensor_data example_world -> SensorReading.id r < i.
Proof.
  apply (insert_assigns_fresh_id
           (SensorData.make "S2" "D2" (at_10h 3) (half_degrees 40)) example_world).
  split.
  - apply (bool_decide_unpack _). vm_compute. exact I.
  - intros r Hr. vm_compute in Hr.
    repeat (apply elem_of_cons in Hr as [->|Hr]; [reflexivity |]).
    by apply elem_of_nil in Hr.
Defined.

(** X7. An insert of a reading leaves the readings of the other sensors
    as they were: a query for another sensor returns the same rows after
    the insert as before it. *)
Theorem insert_leaves_other_sensors data S N w r w1 rows w2 rows' w3 :
  insert_sensor_data data w = (r, w1) ->
  S <> SensorData.sensor_id data ->
  get_latest_readings S N w = (Return rows, w2) ->
  get_latest_readings S N w1 = (Return rows', w3) ->
  rows' = rows.
Proof.
  intros Hins HS Hbefore Hafter.
  apply get_latest_readings_return in Hbefore as (-> & _ & _).
  apply get_latest_readings_return in Hafter as (-> & _ & _).
  destruct r as [i|e].
  - apply insert_sensor_data_return in Hins as [_ ->].
    unfold select_latest.
    change (filter (fun r => SensorReading.sensor_id r = S))
      with (rows_of_sensor S).
    rewrite rows_of_sensor_snoc. cbn. case_decide; [done |].
    by rewrite app_nil_r.
  - apply insert_sensor_data_raise in Hins. by rewrite Hins.
Qed.

Lemma insert_leaves_other_sensors_witness :
  [ SensorReading.make 3 "S2" "D2" (at_10h 1) (half_degrees 38) ]
  = [ SensorReading.make 3 "S2" "D2" (at_10h 1) (half_degrees 38) ].
Proof.
  eapply (insert_leaves_other_sensors
            (SensorData.make "S1" "D1" (at_10h 5) (half_degrees 44))
            "S2" 10 example_world).
  - vm_compute. reflexivity.
  - discriminate.
  - vm_compute. reflexivity.
  - vm_compute. reflexivity.
Defined.

(** X8. Round trip: after an insert that returned, with storage
    answering, the sensor of the reading is in the list of sensors, and a
    query for that sensor with a limit that covers its rows returns the
    row stored, under the identifier returned. *)
Theorem inserted_reading_is_served data w i w1 N :
  insert_sensor_data data w = (Return i, w1) ->
  next_fault w1 = Healthy ->
  Z.of_nat (length (rows_of_sensor (SensorData.sensor_id data) (sensor_data w1)))
    <= N ->
  (exists l, fst (get_all_sensors w1) = Return l
             /\ SensorData.sensor_id data ∈ l)
  /\ (exists rows,
        fst (get_latest_readings (SensorData.sensor_id data) N w1) = Return rows
        /\ row_of i data ∈ rows).
Proof.
  intros Hins Hf HN.
  apply insert_sensor_data_return in Hins as [_ Hrows].
  assert (Hin : row_of i data ∈ sensor_data w1)
    by (rewrite Hrows; apply elem_of_app; right; apply list_elem_of_here).
  split.
  - exists (select_distinct_sensor_id (sensor_data w1)). split.
    + unfold get_all_sensors. storage_cases w1; by try discriminate Hf.
    + apply select_distinct_elem_of. by exists (row_of i data).
  - exists (select_latest (sensor_data w1) (SensorData.sensor_id data) N). split.
    + apply get_latest_readings_healthy; [done | lia].
    + unfold select_latest. rewrite take_ge.
      * rewrite merge_sort_Permutation. by apply list_elem_of_filter.
      * rewrite merge_sort_Permutation. unfold rows_of_sensor in HN. lia.
Qed.

Lemma inserted_reading_is_served_witness :
  let data := SensorData.make "S3" "D1" (at_10h 5) (half_degrees 44) in
  let w1 := snd (insert_sensor_data data example_world) in
  (exists l, fst (get_all_sensors w1) = Return l /\ "S3" ∈ l)
  /\ (exists rows,
        fst (get_latest_readings "S3" 1 w1) = Return rows
        /\ row_of 5 data ∈ rows).
Proof.
  apply (inserted_reading_is_served
           (SensorData.make "S3" "D1" (at_10h 5) (half_degrees 44))
           example_world 5 _ 1).
  - vm_compute. reflexivity.
  - reflexivity.
  - vm_compute. discriminate.
Defined.

(** X9. The newest reading comes first: in a table with fresh ids, a
    reading inserted with a timestamp not earlier than those of the
    stored rows of its sensor is the first row of the latest readings of
    that sensor. *)
Theorem newest_reading_comes_first data w i w1 N :
  ids_fresh w ->
  insert_sensor_data data w = (Return i, w1) ->
  next_fault w1 = Healthy -> 1 <= N ->
  (forall r, r ∈ sensor_data w ->
             SensorReading.sensor_id r = SensorData.sensor_id data ->
             datetime_le (SensorReading.timestamp r) (SensorData.timestamp data)) ->
  exists rest,
    fst (get_latest_readings (SensorData.sensor_id data) N w1)
    = Return (row_of i data :: rest).
Proof.
  intros [_ Hbelow] Hins Hf HN Hlate.
  apply insert_sensor_data_return in Hins as [-> Hrows].
  rewrite (get_latest_readings_healthy _ N w1 Hf) by lia.
  unfold select_latest.
  set (new := row_of (auto_increment w) data).
  set (sorted := merge_sort latest_first _).
  assert (Hsorted : StronglySorted latest_first sorted)
    by apply (StronglySorted_merge_sort latest_first).
  assert (Hmem : forall r, r ∈ sorted ->
            r = new \/ (r ∈ sensor_data w
                        /\ SensorReading.sensor_id r = SensorData.sensor_id data)).
  { intros r Hr. unfold sorted in Hr. rewrite merge_sort_Permutation in Hr.
    apply list_elem_of_filter in Hr as [HS Hr]. rewrite Hrows in Hr.
    apply elem_of_app in Hr as [Hr|Hr]; [by right |].
    left. by apply list_elem_of_singleton in Hr. }
  assert (Hnew : new ∈ sorted).
  { unfold sorted. rewrite merge_sort_Permutation.
    apply list_elem_of_filter. split; [done |].
    rewrite Hrows. apply elem_of_app. right. apply list_elem_of_here. }
  destruct sorted as [|h t]; [by apply elem_of_nil in Hnew |].
  assert (h = new) as ->.
  { destruct (Hmem h (list_elem_of_here _ _)) as [Hh|[Hh HS]]; [done |].
    exfalso. pose proof (Hbelow h Hh) as Hid.
    destruct (Hlate h Hh HS) as [Hkey|Hkey].
    all: apply elem_of_cons in Hnew as [Hnew|Hnew];
      [ subst h; cbn in Hid; lia |].
    all: apply StronglySorted_inv in Hsorted as [_ Hall].
    all: rewrite Forall_forall in Hall; apply Hall in Hnew.
    all: unfold latest_first, sort_key in Hnew; subst new; cbn in Hnew.
    all: destruct Hnew as [Heq|[Hlt|[Heq Hlt]]]; cbn in *.
    - apply pair_equal_spec in Heq as [_ Heq]. lia.
    - rewrite Hkey in Hlt. by apply (irreflexivity lexico) in Hlt.
    - unfold lexico, Z_lexico in Hlt. lia.
    - apply pair_equal_spec in Heq as [_ Heq]. lia.
    - apply (irreflexivity lexico (datetime_key (SensorReading.timestamp h))).
      etrans; eauto.
    - unfold lexico, Z_lexico in Hlt. lia. }
  destruct (Z.to_nat N) as [|n] eqn:Hn; [lia |]. cbn. eauto.
Qed.

Lemma newest_reading_comes_first_witness :
  exists rest,
    fst (get_latest_readings "S1" 2
           (snd (insert_sensor_data
                   (SensorData.make "S1" "D1" (at_10h 2) (half_degrees 44))
                   example_world)))
    = Return (row_of 5 (SensorData.make "S1" "D1" (at_10h 2) (half_degrees 44))
              :: rest).
Proof.
  apply (newest_reading_comes_first
           (SensorData.make "S1" "D1" (at_10h 2) (half_degrees 44))
           example_world 5 _ 2).
  - split.
    + apply (bool_decide_unpack _). vm_compute. exact I.
    + intros r Hr. vm_compute in Hr.
      repeat (apply elem_of_cons in Hr as [->|Hr]; [reflexivity |]).
      by apply elem_of_nil in Hr.
  - vm_compute. reflexivity.
  - reflexivity.
  - lia.
  - intros r Hr _. vm_compute in Hr.
    repeat (apply elem_of_cons in Hr as [->|Hr];
            [first [by left | by right; vm_compute; naive_solver] |]).
    by apply elem_of_nil in Hr.
Defined.

(** ** The listener over a stream of messages *)

(** [decode_message] does not read the world. *)
Lemma decode_message_fst lib msg w1 w2 :
  fst (decode_message lib msg w1) = fst (decode_message lib msg w2).
Proof.
  unfold decode_message, bind, json_loads_decode, getitem, fromisoformat,
    setitem, SensorData_init, ret, raise.
  destruct (msg_payload msg) as [?|?|[]]; try reflexivity.
  destruct (d !! "timestamp") as [[]|]; try reflexivity.
  destruct (datetime_fromisoformat lib s); try reflexivity.
  destruct (SensorData_validate lib _); reflexivity.
Qed.

(** An insert with storage answering: the row, the counter and the
    faults that are left. *)
Lemma insert_sensor_data_healthy data w :
  next_fault w = Healthy ->
  let w' := snd (insert_sensor_data data w) in
  fst (insert_sensor_data data w) = Return (auto_increment w)
  /\ sensor_data w' = sensor_data w ++ [row_of (auto_increment w) data]
  /\ auto_increment w' = auto_increment w + 1
  /\ faults w' = tail (faults w).
Proof.
  intros Hf. unfold insert_sensor_data. storage_cases w; by try discriminate Hf.
Qed.

(** The table and the output only grow under [insert_sensor_data]. *)
Lemma insert_sensor_data_grows data w :
  let w' := snd (insert_sensor_data data w) in
  (exists new, sensor_data w' = sensor_data w ++ new /\ (length new <= 1)%nat)
  /\ (length (stdout w) <= length (stdout w'))%nat.
Proof.
  unfold insert_sensor_data. storage_cases w.
  all: split; [| rewrite ?length_app; cbn; lia].
  all: first [ by exists []; rewrite app_nil_r; cbn; auto
             | by eexists [_]; cbn; auto ].
Qed.

(** One message: no exception, at most one row appended, at least one
    line printed. *)
Lemma on_message_step lib msg w :
  exists w',
    on_message lib msg w = (Return tt, w')
    /\ (exists new, sensor_data w' = sensor_data w ++ new /\ (length new <= 1)%nat)
    /\ (length (stdout w) < length (stdout w'))%nat.
Proof.
  rewrite on_message_run.
  destruct (decode_message lib msg w) as [[data|e] w0].
  - pose proof (insert_sensor_data_grows data w) as [Hrows Hout].
    destruct (insert_sensor_data data w) as [[i|e] w1]; cbn in *.
    all: eexists; split; [reflexivity |]; cbn.
    all: split; [exact Hrows | rewrite List.length_app; cbn; lia].
  - eexists. split; [reflexivity |]. cbn. split.
    + exists []. rewrite app_nil_r. cbn. split; [reflexivity | lia].
    + rewrite List.length_app. cbn. lia.
Qed.

(** X10. The loop over any sequence of messages returns without an
    exception; it only appends to the table, at most one row per
    message, and prints at least one line per message. *)
Theorem mqtt_loop_appends lib msgs w :
  exists w' new,
    mqtt_loop lib msgs w = (Return tt, w')
    /\ sensor_data w' = sensor_data w ++ new
    /\ (length new <= length msgs)%nat
    /\ (length (stdout w) + length msgs <= length (stdout w'))%nat.
Proof.
  revert w. induction msgs as [|msg rest IH]; intros w.
  - exists w, []. cbn. rewrite app_nil_r. repeat split; lia.
  - destruct (on_message_step lib msg w) as (w1 & Hstep & (new1 & Hrows1 & Hlen1) & Hout1).
    destruct (IH w1) as (w' & new & Hloop & Hrows & Hlen & Hout).
    exists w', (new1 ++ new). cbn. unfold bind at 1. rewrite Hstep.
    split; [exact Hloop |]. split; [| split].
    + by rewrite Hrows, Hrows1, app_assoc.
    + rewrite length_app. lia.
    + lia.
Qed.

(** X11. Nothing removes duplicates: with storage answering, a valid
    message delivered twice stores two rows, with fresh consecutive ids
    and the same reading. *)
Theorem duplicate_delivery_stores_twice lib msg c w :
  fst (decode_message lib msg w) = Return c ->
  faults w = [] ->
  sensor_data (snd (mqtt_loop lib [msg; msg] w))
  = sensor_data w ++ [row_of (auto_increment w) c;
                      row_of (auto_increment w + 1) c].
Proof.
  intros Hdec Hfaults.
  assert (Hstep : forall w0, faults w0 = [] ->
            let w0' := snd (on_message lib msg w0) in
            fst (on_message lib msg w0) = Return tt
            /\ sensor_data w0' = sensor_data w0 ++ [row_of (auto_increment w0) c]
            /\ auto_increment w0' = auto_increment w0 + 1
            /\ faults w0' = []).
  { intros w0 Hf0. cbn zeta. rewrite on_message_run.
    pose proof (decode_message_fst lib msg w0 w) as Hsame.
    rewrite Hdec in Hsame.
    destruct (decode_message lib msg w0) as [r w0']. cbn in Hsame. subst r.
    assert (Hh : next_fault w0 = Healthy) by (unfold next_fault; by rewrite Hf0).
    pose proof (insert_sensor_data_healthy c w0 Hh) as (H1 & H2 & H3 & H4).
    destruct (insert_sensor_data c w0) as [r w1]. cbn in *. subst r. cbn.
    rewrite H4, Hf0. auto. }
  cbn. unfold bind.
  destruct (Hstep w Hfaults) as (H1 & H2 & H3 & H4).
  destruct (on_message lib msg w) as [r w1]. cbn in *. subst r.
  destruct (Hstep w1 H4) as (H1' & H2' & H3' & H4').
  destruct (on_message lib msg w1) as [r w2]. cbn in *. subst r. cbn.
  by rewrite H2', H2, H3, <- app_assoc.
Qed.

Lemma duplicate_delivery_stores_twice_witness :
  let c := SensorData.make "SENSOR001" "DEVICE123"
             (mk_datetime 2025 10 22 10 30 0 0) (half_degrees 47) in
  let msg := mk_message "sensor/data" (example_body "SENSOR001") in
  sensor_data (snd (mqtt_loop reference_library [msg; msg] empty_world))
  = sensor_data empty_world ++ [row_of 1 c; row_of (1 + 1) c].
Proof.
  apply (duplicate_delivery_stores_twice reference_library
           (mk_message "sensor/data" (example_body "SENSOR001"))
           (SensorData.make "SENSOR001" "DEVICE123"
              (mk_datetime 2025 10 22 10 30 0 0) (half_degrees 47))
           empty_world).
  - vm_compute. reflexivity.
  - reflexivity.
Defined.

(** X12. The listener needs the timestamp as a string it can parse: a
    payload that is not an object, or has no [timestamp], or a
    [timestamp] that is not a string or that [datetime.fromisoformat]
    refuses, is dropped; the world changes only by the line printed for
    the exception, which for a refused string is the [ValueError] of
    [datetime.fromisoformat] with the text the library gives it. *)
Theorem on_message_needs_timestamp lib topic v w :
  let msg := mk_message topic (JSON v) in
  let dropped (e : exn) :=
    on_message lib msg w = (Return tt, printed (LogProcessError e) w) in
  match v with
  | VDict d =>
      match d !! "timestamp" with
      | None => dropped (KeyError "timestamp")
      | Some (VStr s) =>
          match datetime_fromisoformat lib s with
          | None => dropped (ValueError (fromisoformat_error lib s))
          | Some _ => True
          end
      | Some _ => dropped (TypeError "fromisoformat: argument must be str")
      end
  | _ => exists m, dropped (TypeError m)
  end.
Proof.
  intros msg dropped. subst dropped msg. cbn beta.
  unfold on_message, try_except, bind, json_loads_decode, getitem, fromisoformat,
    ret, raise, printed, print. cbn.
  destruct v; try (eexists; reflexivity).
  destruct (d !! "timestamp") as [[]|]; try reflexivity.
  by destruct (datetime_fromisoformat lib s).
Qed.

(** ** Validation *)

(** What a [SensorData] that validates says of the dictionary. *)
Lemma SensorData_validate_inr lib d c :
  SensorData_validate lib d = inr c ->
  d !! "sensor_id" = Some (VStr (SensorData.sensor_id c))
  /\ d !! "device_id" = Some (VStr (SensorData.device_id c))
  /\ (exists t, d !! "timestamp" = Some t
                /\ validate_datetime lib t = Some (SensorData.timestamp c))
  /\ (exists v, d !! "temp_value" = Some v
                /\ validate_float lib v = Some (SensorData.temp_value c)).
Proof.
  unfold SensorData_validate, field.
  destruct (d !! "sensor_id") as [[]|]; cbn; try discriminate.
  destruct (d !! "device_id") as [[]|]; cbn; try discriminate.
  destruct (d !! "timestamp") as [t|]; cbn; [| discriminate].
  destruct (validate_datetime lib t) eqn:Ht; cbn; [| discriminate].
  destruct (d !! "temp_value") as [v|]; cbn; [| discriminate].
  destruct (validate_float lib v) eqn:Hv; cbn; [| discriminate].
  intros [= <-]. cbn. eauto 10.
Qed.

(** X13. Validation reports every field that fails, and only fields of
    the model: when it fails, the error list is not empty, each error
    names one of the four fields, and each field missing from the
    dictionary is reported as missing; when it succeeds, the four fields
    are in the dictionary, the two identifiers as the strings they are. *)
Theorem validation_reports_every_field lib d :
  match SensorData_validate lib d with
  | inl errs =>
      errs <> []
      /\ (forall n t, (n, t) ∈ errs -> n ∈ field_names)
      /\ (forall n, n ∈ field_names -> d !! n = None -> (n, "missing") ∈ errs)
  | inr c =>
      d !! "sensor_id" = Some (VStr (SensorData.sensor_id c))
      /\ d !! "device_id" = Some (VStr (SensorData.device_id c))
      /\ is_Some (d !! "timestamp")
      /\ is_Some (d !! "temp_value")
  end.
Proof.
  destruct (SensorData_validate lib d) as [errs|c] eqn:Hv.
  - unfold SensorData_validate in Hv.
    destruct (field d "sensor_id" _ _) as [e1|?] eqn:H1;
    destruct (field d "device_id" _ _) as [e2|?] eqn:H2;
    destruct (field d "timestamp" _ _) as [e3|?] eqn:H3;
    destruct (field d "temp_value" _ _) as [e4|?] eqn:H4;
      try discriminate Hv; injection Hv as <-; cbn.
    all: repeat split.
    all: try (intros Hnil; repeat (apply app_eq_nil in Hnil as [? Hnil]);
              subst; unfold field in *;
              repeat match goal with
                | H : match ?x with _ => _ end = _ |- _ =>
                    destruct x; try discriminate H
                end; fail).
    all: try (intros n t Hin; repeat rewrite elem_of_app in Hin;
              repeat match goal with
                | H : _ \/ _ |- _ => destruct H
                | H : _ ∈ [] |- _ => by apply elem_of_nil in H
                | H : (_, _) ∈ ?e, Hf : field _ _ _ _ = inl ?e |- _ =>
                    apply (field_errors _ _ _ _ _ _ _ Hf) in H; subst;
                    unfold field_names; set_solver
                end; fail).
    all: intros n Hn Hmiss; unfold field_names in Hn.
    all: repeat (apply elem_of_cons in Hn as [->|Hn]);
      try (by apply elem_of_nil in Hn).
    all: unfold field in *; rewrite Hmiss in *; simplify_eq; set_solver.
  - apply SensorData_validate_inr in Hv as (? & ? & (? & ? & _) & (? & ? & _)).
    eauto.
Qed.

(** ** The response of the endpoint *)

(** X14. An accepted submission is answered with what was stored: the
    last row of the table has the identifier of the response and the
    fields it echoes, the timestamp in ISO format; the submission is
    logged once. *)
Theorem submit_response_describes_row lib body w resp w' :
  POST_data lib body w = (Return resp, w') ->
  exists c,
    body_SensorData lib body w = (Return c, w)
    /\ last (sensor_data w') = Some (row_of (record_id resp) c)
    /\ status resp = "success"
    /\ data resp = mk_echo (SensorData.sensor_id c) (SensorData.device_id c)
                     (datetime_isoformat lib (SensorData.timestamp c))
                     (SensorData.temp_value c)
    /\ stdout w' = stdout w ++ [LogReceivedREST (record_id resp) c].
Proof.
  unfold POST_data, bind at 1.
  pose proof (body_SensorData_pure lib body w) as Hpure.
  destruct (body_SensorData lib body w) as [[c|e] w0]; [| discriminate].
  cbn in Hpure. subst w0.
  unfold submit_sensor_data, bind, print, ret.
  pose proof (insert_sensor_data_run c w) as Hrun.
  destruct (insert_sensor_data c w) as [[i|e] w1] eqn:Hins; [| discriminate].
  intros [= <- <-]. exists c. cbn.
  apply insert_sensor_data_return in Hins as [-> Hrows].
  split; [done |]. split; [by rewrite Hrows, last_snoc |].
  split; [done |]. split; [done |].
  cbn in Hrun.
  destruct (next_fault w) as [|?|?|[] ?]; destruct Hrun as (Hr & _ & Hout);
    try discriminate Hr; by rewrite Hout.
Qed.

Lemma submit_response_describes_row_witness :
  exists c,
    body_SensorData reference_library (example_body "SENSOR001") empty_world
    = (Return c, empty_world)
    /\ last (sensor_data (snd (POST_data reference_library
                                 (example_body "SENSOR001") empty_world)))
       = Some (row_of 1 c)
    /\ "success" = "success"
    /\ mk_echo "SENSOR001" "DEVICE123" "2025-10-22T10:30:00" (half_degrees 47)
       = mk_echo (SensorData.sensor_id c) (SensorData.device_id c)
           (datetime_isoformat reference_library (SensorData.timestamp c))
           (SensorData.temp_value c)
    /\ stdout (snd (POST_data reference_library
                      (example_body "SENSOR001") empty_world))
       = stdout empty_world ++ [LogReceivedREST 1 c].
Proof.
  eapply (submit_response_describes_row reference_library
            (example_body "SENSOR001") empty_world
            (mk_submit_response "success"
               "Sensor data received and stored in database" 1
               (mk_echo "SENSOR001" "DEVICE123" "2025-10-22T10:30:00"
                  (half_degrees 47)))).
  vm_compute. reflexivity.
Defined.

(** ** No connection is left behind *)

Lemma leak_free_ret {A} (a : A) : leak_free (ret a).
Proof. by intros w Hw. Qed.

Lemma leak_free_raise {A} e : leak_free (raise (A := A) e).
Proof. by intros w Hw. Qed.

Lemma leak_free_print l : leak_free (print l).
Proof. by intros w Hw. Qed.

Lemma leak_free_bind {A B} (m : M A) (k : A -> M B) :
  leak_free m -> (forall a, leak_free (k a)) -> leak_free (bind m k).
Proof.
  intros Hm Hk w Hw. unfold bind. specialize (Hm w Hw).
  destruct (m w) as [[a|e] w1]; cbn in *; [| done].
  destruct Hm as [Hw1 Heq]. destruct (Hk a w1 Hw1) as [Hw2 Heq2].
  split; [done | congruence].
Qed.

Lemma leak_free_try_except {A} (body : M A) handler :
  leak_free body ->
  (forall e h, handler e = Some h -> leak_free h) ->
  leak_free (try_except body handler).
Proof.
  intros Hb Hh w Hw. unfold try_except. specialize (Hb w Hw).
  destruct (body w) as [[a|e] w1]; cbn in *; [done |].
  destruct (handler e) as [h|] eqn:He; [| done].
  destruct Hb as [Hw1 Heq]. destruct (Hh e h He w1 Hw1) as [Hw2 Heq2].
  split; [done | congruence].
Qed.

(** Closes the goals of [leak_free] for a storage operation: the handle
    it took was free, so closing it gives back the map of before. *)
Ltac handles_back :=
  match goal with
  | Hw : handles_fresh ?w |- _ =>
      assert (open_connections w !! handles_issued w = None)
        by (destruct (open_connections w !! handles_issued w) eqn:Hopen;
            [ assert (handles_issued w < handles_issued w)%nat
                by (apply Hw; by rewrite Hopen); lia | done ]);
      split;
      [ intros h Hh; cbn in *;
        rewrite ?delete_insert_eq, ?delete_id in Hh by done;
        try apply Hw in Hh; lia
      | cbn; by rewrite ?delete_insert_eq, ?delete_id by done ]
  end.

Lemma insert_sensor_data_leak_free data : leak_free (insert_sensor_data data).
Proof.
  intros w Hw. unfold insert_sensor_data. storage_cases w; handles_back.
Qed.

Lemma get_latest_readings_leak_free sensor limit :
  leak_free (get_latest_readings sensor limit).
Proof.
  intros w Hw. unfold get_latest_readings.
  storage_cases w; try case_decide; cbn; handles_back.
Qed.

Lemma get_all_sensors_leak_free : leak_free get_all_sensors.
Proof. intros w Hw. unfold get_all_sensors. storage_cases w; handles_back. Qed.

Lemma health_check_leak_free cfg : leak_free (health_check cfg).
Proof. intros w Hw. unfold health_check. storage_cases w; handles_back. Qed.

Lemma on_message_leak_free lib msg : leak_free (on_message lib msg).
Proof.
  intros w Hw. rewrite on_message_run.
  pose proof (decode_message_pure lib msg w) as Hpure.
  destruct (decode_message lib msg w) as [[data|e] w0]; cbn in Hpure; subst w0.
  - pose proof (insert_sensor_data_leak_free data w Hw) as Hins.
    by destruct (insert_sensor_data data w) as [[i|e] w1].
  - done.
Qed.

(** X15. No connection is left behind by the listener or by a route:
    from a world whose open handles were all issued, the loop over any
    sequence of messages and each route end with the connections that
    were open when they started, whatever storage does. *)
Theorem no_connection_leak lib cfg msgs body sensor query w :
  handles_fresh w ->
  let same (w' : world) :=
    handles_fresh w' /\ open_connections w' = open_connections w in
  same (snd (mqtt_loop lib msgs w))
  /\ same (snd (POST_data lib body w))
  /\ same (snd (GET_sensor_readings sensor query w))
  /\ same (snd (list_sensors w))
  /\ same (snd (health_check cfg w)).
Proof.
  intros Hw same. subst same. cbn beta.
  assert (Hloop : leak_free (mqtt_loop lib msgs)).
  { induction msgs as [|msg rest IH]; [apply leak_free_ret |].
    cbn. apply leak_free_bind; [apply on_message_leak_free | by intros _]. }
  assert (Hpost : leak_free (POST_data lib body)).
  { apply leak_free_bind.
    - intros w0 Hw0. by rewrite body_SensorData_pure.
    - intros c. unfold submit_sensor_data.
      apply leak_free_bind; [apply insert_sensor_data_leak_free |].
      intros i. apply leak_free_bind; [apply leak_free_print |].
      intros _. apply leak_free_ret. }
  assert (Hget : leak_free (GET_sensor_readings sensor query)).
  { apply leak_free_bind.
    - unfold query_limit. destruct query; repeat case_decide;
        first [apply leak_free_ret | apply leak_free_raise].
    - intros n. unfold get_sensor_readings.
      apply leak_free_bind; [apply get_latest_readings_leak_free |].
      intros [|]; [apply leak_free_raise | apply leak_free_ret]. }
  assert (Hlist : leak_free list_sensors).
  { apply leak_free_bind; [apply get_all_sensors_leak_free |].
    intros [|]; apply leak_free_ret. }
  split; [by apply Hloop |]. split; [by apply Hpost |].
  split; [by apply Hget |]. split; [by apply Hlist |].
  by apply health_check_leak_free.
Qed.

Lemma no_connection_leak_witness :
  let w := empty_world in
  let same (w' : world) :=
    handles_fresh w' /\ open_connections w' = open_connections w in
  same (snd (mqtt_loop reference_library
               [mk_message "sensor/data" malformed_payload;
                mk_message "sensor/data" (example_body "SENSOR001")] w))
  /\ same (snd (POST_data reference_library (example_body "SENSOR001") w))
  /\ same (snd (GET_sensor_readings "SENSOR001" None w))
  /\ same (snd (list_sensors w))
  /\ same (snd (health_check default_config w)).
Proof.
  apply (no_connection_leak reference_library default_config
           [mk_message "sensor/data" malformed_payload;
            mk_message "sensor/data" (example_body "SENSOR001")]
           (example_body "SENSOR001") "SENSOR001" None empty_world).
  intros h [rows Hh]. cbn in Hh. by rewrite lookup_empty in Hh.
Defined.

(** ** The load generator against the server *)

(** What [POST /data] does to the table. *)
Lemma POST_data_table lib body w :
  match POST_data lib body w with
  | (Return resp, w') =>
      exists c, body_SensorData lib body w = (Return c, w)
                /\ sensor_data w' = sensor_data w ++ [row_of (record_id resp) c]
  | (Raise e, w') =>
      sensor_data w' = sensor_data w
      /\ status_code (A := submit_response) 201 (Raise e) <> 201
  end.
Proof.
  unfold POST_data, bind at 1.
  pose proof (body_SensorData_pure lib body w) as Hpure.
  destruct (body_SensorData lib body w) as [[c|e] w0] eqn:Hbody;
    cbn in Hpure; subst w0.
  - unfold submit_sensor_data, bind, print, ret.
    pose proof (insert_sensor_data_run c w) as Hrun.
    destruct (insert_sensor_data c w) as [[i|e] w1] eqn:Hins; cbn in *.
    + apply insert_sensor_data_return in Hins as [_ ->]. eauto.
    + apply insert_sensor_data_raise in Hins. split; [done |].
      destruct (next_fault w) as [|?|?|[] ?]; destruct Hrun as (Hr & _);
        try discriminate Hr; by injection Hr as ->.
  - apply body_SensorData_raise in Hbody. split; [done |].
    destruct body; [subst e | destruct Hbody as [errs ->] ..]; discriminate.
Qed.

Lemma choice_elem_of seq k : seq <> [] -> choice seq k ∈ seq.
Proof.
  intros Hseq. unfold choice.
  destruct (seq !! (k mod length seq)%nat) as [s|] eqn:Hs.
  - by apply list_elem_of_lookup_2 in Hs.
  - apply lookup_ge_None in Hs.
    assert (length seq <> 0%nat) by (by destruct seq).
    pose proof (Nat.mod_upper_bound k (length seq)). lia.
Qed.

(** X16. [send_data] reports what the server did: it prints that the
    data was sent exactly when the server has stored the reading, as one
    new row with the [sensor_id] that was sent; in every other case
    (status other than 201, no server, a failed request) the table of the
    server is as it was. *)
Theorem send_data_reports_storage lib net data w :
  match send_data lib net data w with
  | (DataSent s t :: _, w') =>
      exists i c, sensor_data w' = sensor_data w ++ [row_of i c]
                  /\ s = VStr (SensorData.sensor_id c)
  | (_, w') => sensor_data w' = sensor_data w
  end.
Proof.
  unfold send_data.
  destruct (json_dumps_error data); [reflexivity |].
  destruct net; try reflexivity.
  pose proof (POST_data_table lib (JSON data) w) as Htable.
  destruct (POST_data lib (JSON data) w) as [[resp|e] w'].
  2: { destruct Htable as [Hrows Hstatus].
       by destruct (Z.eqb_spec (status_code (A := submit_response) 201 (Raise e)) 201). }
  destruct Htable as (c & Hbody & Hrows). cbn.
  unfold body_SensorData in Hbody.
  destruct data; try discriminate Hbody.
  destruct (SensorData_validate lib d) as [errs|c'] eqn:Hv;
    [discriminate Hbody |].
  injection Hbody as ->.
  apply SensorData_validate_inr in Hv as (Hs & _ & _ & (v & Hv & _)).
  rewrite Hs, Hv. eauto.
Qed.

(** X17. Every reading the generator makes is accepted: when the server
    is up, storage answers, the temperature drawn is a finite float and
    pydantic reads back the ISO timestamp of the clock, [send_data] of a
    generated dictionary prints that the data was sent, and the server
    has stored the reading as one row, with a sensor and a device of the
    generator's lists. *)
Theorem generated_reading_is_stored lib dr w :
  is_finite (temp_draw dr) = true ->
  coerce_datetime lib (VStr (datetime_isoformat lib (now dr))) = Some (now dr) ->
  next_fault w = Healthy ->
  let c := generated_reading dr in
  SensorData.sensor_id c ∈ SENSOR_IDS
  /\ SensorData.device_id c ∈ DEVICE_IDS
  /\ exists w',
       send_data lib ServerUp (generate_sensor_data lib dr) w
       = ([DataSent (VStr (SensorData.sensor_id c))
                    (VFloat (SensorData.temp_value c));
           ResponseMessage "Sensor data received and stored in database"], w')
       /\ sensor_data w' = sensor_data w ++ [row_of (auto_increment w) c].
Proof.
  intros Hfin Hpyd Hf c.
  split; [by apply choice_elem_of |]. split; [by apply choice_elem_of |].
  assert (Hvalid : SensorData_validate lib
            (<["sensor_id" := VStr (SensorData.sensor_id c)]>
            (<["device_id" := VStr (SensorData.device_id c)]>
            (<["timestamp" := VStr (datetime_isoformat lib
                                      (SensorData.timestamp c))]>
            (<["temp_value" := VFloat (SensorData.temp_value c)]> ∅))))
          = inr c).
  { apply (SensorData_validate_fields lib _ c
             (VStr (datetime_isoformat lib (SensorData.timestamp c))));
      [ lookup_literal | lookup_literal | lookup_literal
      | exact Hpyd | lookup_literal ]. }
  pose proof (insert_sensor_data_healthy c w Hf) as (Hret & Hrows & _).
  unfold send_data.
  assert (json_dumps_error (generate_sensor_data lib dr) = None) as ->
    by (vm_compute; vm_compute in Hfin; by rewrite Hfin).
  unfold generate_sensor_data, reading_json.
  fold c. unfold POST_data, bind at 1, body_SensorData. rewrite Hvalid.
  unfold ret, submit_sensor_data, bind, print.
  destruct (insert_sensor_data c w) as [r w1]. cbn in Hret, Hrows. subst r.
  cbn.
  assert ((<["sensor_id" := VStr (SensorData.sensor_id c)]>
           (<["device_id" := VStr (SensorData.device_id c)]>
           (<["timestamp" := VStr (datetime_isoformat lib
                                     (SensorData.timestamp c))]>
           (<["temp_value" := VFloat (SensorData.temp_value c)]> ∅))))
          !! "sensor_id" = Some (VStr (SensorData.sensor_id c))) as ->
    by lookup_literal.
  assert ((<["sensor_id" := VStr (SensorData.sensor_id c)]>
           (<["device_id" := VStr (SensorData.device_id c)]>
           (<["timestamp" := VStr (datetime_isoformat lib
                                     (SensorData.timestamp c))]>
           (<["temp_value" := VFloat (SensorData.temp_value c)]> ∅))))
          !! "temp_value" = Some (VFloat (SensorData.temp_value c))) as ->
    by lookup_literal.
  eexists. split; [reflexivity | exact Hrows].
Qed.

Lemma generated_reading_is_stored_witness :
  let dr := mk_draws 6 1 (mk_datetime 2025 10 22 10 30 0 250000) (half_degrees 47) in
  let c := generated_reading dr in
  SensorData.sensor_id c ∈ SENSOR_IDS
  /\ SensorData.device_id c ∈ DEVICE_IDS
  /\ exists w',
       send_data reference_library ServerUp
         (generate_sensor_data reference_library dr) empty_world
       = ([DataSent (VStr (SensorData.sensor_id c))
                    (VFloat (SensorData.temp_value c));
           ResponseMessage "Sensor data received and stored in database"], w')
       /\ sensor_data w' = sensor_data empty_world ++ [row_of 1 c].
Proof.
  apply (generated_reading_is_stored reference_library
           (mk_draws 6 1 (mk_datetime 2025 10 22 10 30 0 250000) (half_degrees 47))
           empty_world).
  - reflexivity.
  - reflexivity.
  - reflexivity.
Defined.

(** One round of the generator: the table of the server is as it was, or
    has one more row, of a sensor and a device of the generator's lists;
    at least one line is printed. *)
Lemma send_data_generated lib net dr w :
  let r := send_data lib net (generate_sensor_data lib dr) w in
  (exists new,
     sensor_data (snd r) = sensor_data w ++ new
     /\ (length new <= 1)%nat
     /\ Forall (fun row => SensorReading.sensor_id row ∈ SENSOR_IDS
                           /\ SensorReading.device_id row ∈ DEVICE_IDS) new)
  /\ (1 <= length (fst r))%nat.
Proof.
  cbn zeta. unfold send_data.
  destruct (json_dumps_error _).
  { cbn. split; [| lia]. exists []. rewrite app_nil_r. cbn.
    repeat split; [lia | constructor]. }
  destruct net.
  2, 3: cbn; (split; [| lia]); exists []; rewrite app_nil_r; cbn;
    repeat split; [lia | constructor].
  pose proof (POST_data_table lib (JSON (generate_sensor_data lib dr)) w) as Htable.
  destruct (POST_data lib _ w) as [[resp|e] w'].
  - destruct Htable as (c & Hbody & Hrows).
    unfold generate_sensor_data, reading_json, generated_reading in *.
    match type of Hbody with context [VDict ?m] => set (d := m) in * end.
    unfold body_SensorData in Hbody.
    destruct (SensorData_validate lib d) as [errs|c'] eqn:Hv;
      [discriminate Hbody |].
    injection Hbody as ->.
    apply SensorData_validate_inr in Hv as (Hs & Hd & _ & (v & Hv & _)).
    rewrite Hs, Hv. cbn. split; [| lia].
    exists [row_of (record_id resp) c]. split; [done |]. split; [cbn; lia |].
    apply Forall_singleton. cbn.
    assert (SensorData.sensor_id c = choice SENSOR_IDS (sensor_draw dr)) as ->.
    { revert Hs. subst d. rewrite lookup_insert_eq. cbn. by intros [= ->]. }
    assert (SensorData.device_id c = choice DEVICE_IDS (device_draw dr)) as ->.
    { revert Hd. subst d. rewrite lookup_insert_ne by done.
      rewrite lookup_insert_eq. cbn. by intros [= ->]. }
    split; by apply choice_elem_of.
  - destruct Htable as [Hrows Hstatus].
    destruct (Z.eqb_spec (status_code (A := submit_response) 201 (Raise e)) 201);
      [done |].
    cbn. split; [| lia]. exists []. rewrite app_nil_r. cbn.
    repeat split; [exact Hrows | lia | constructor].
Qed.

(** X18. Whatever the generator draws and whatever its requests meet,
    after any number of rounds of its loop the table of the server has
    only grown, by at most one row per round, each new row being of a
    sensor and a device of the generator's lists; every round prints at
    least one line. *)
Theorem main_loop_stores_generated lib rounds w :
  exists new,
    sensor_data (snd (main_loop lib rounds w)) = sensor_data w ++ new
    /\ (length new <= length rounds)%nat
    /\ Forall (fun row => SensorReading.sensor_id row ∈ SENSOR_IDS
                          /\ SensorReading.device_id row ∈ DEVICE_IDS) new
    /\ (length rounds <= length (fst (main_loop lib rounds w)))%nat.
Proof.
  revert w. induction rounds as [|[dr net] rest IH]; intros w.
  - exists []. cbn. rewrite app_nil_r. repeat split; [lia | constructor | lia].
  - cbn [main_loop].
    pose proof (send_data_generated lib net dr w)
      as [(new1 & Hrows1 & Hlen1 & Hall1) Hout1].
    destruct (send_data lib net (generate_sensor_data lib dr) w) as [out w1].
    destruct (IH w1) as (new & Hrows & Hlen & Hall & Hout).
    destruct (main_loop lib rest w1) as [out' w2]. cbn in *.
    exists (new1 ++ new). split; [by rewrite Hrows, Hrows1, app_assoc |].
    split; [rewrite length_app; lia |]. split; [by apply Forall_app |].
    rewrite length_app. lia.
Qed.

(** ** The status of the read routes *)

(** X19. The status of [GET /sensors/{sensor_id}/readings] for a limit
    within bounds: 200 or 404 when storage answers, 404 exactly when the
    sensor has no row; 500 when the connection fails or the query is
    refused, also for a sensor that has no row. *)
Theorem sensor_readings_status S N w :
  1 <= N <= 100 ->
  let status := status_code 200 (fst (GET_sensor_readings S (Some N) w)) in
  match next_fault w with
  | Healthy | FailsAt AtCommit _ =>
      status = if decide (rows_of_sensor S (sensor_data w) = []) then 404 else 200
  | _ => status = 500
  end.
Proof.
  intros HN status. subst status.
  pose proof (select_latest_nil (sensor_data w) S N ltac:(lia)) as [Hnil1 Hnil2].
  unfold GET_sensor_readings, query_limit, get_sensor_readings, bind at 1, ret.
  repeat case_decide; try lia.
  all: unfold bind at 1, get_latest_readings; storage_cases w; try reflexivity.
  all: destruct (decide (N < 0)); [lia |]; cbn.
  all: destruct (select_latest (sensor_data w) S N) eqn:Hsel; cbn;
    try reflexivity.
  all: first [ by discriminate Hnil2 | by exfalso; auto ].
Qed.

Lemma sensor_readings_status_witness :
  status_code 200
    (fst (GET_sensor_readings "unknown-sensor" (Some 5)
            (mk_world example_rows 5 ∅ 0
               [FailsAt AtExecute "Lost connection to MySQL server"] [])))
  = 500.
Proof.
  apply (sensor_readings_status "unknown-sensor" 5
           (mk_world example_rows 5 ∅ 0
              [FailsAt AtExecute "Lost connection to MySQL server"] [])).
  lia.
Defined.

(** X20. The probe never reports itself unhealthy: its status is
    [healthy] whatever storage does, the state of storage being told by
    the [database] field alone; a connection that could not be made is
    also printed by [get_db_connection]. *)
Theorem health_check_status_is_constant cfg w :
  exists h w',
    health_check cfg w = (Return h, w')
    /\ health_status h = "healthy"
    /\ status_code 200 (fst (health_check cfg w)) = 200
    /\ faults w' = tail (faults w)
    /\ stdout w' = stdout w ++
         match next_fault w with
         | Unreachable e => [LogConnectError e]
         | _ => []
         end.
Proof.
  unfold health_check. storage_cases w.
  all: eexists; eexists; split; [reflexivity |]; cbn.
  all: rewrite ?app_nil_r; auto.
Qed.
